(** * MPU9250 / AK8963 bare-metal driver (vitis/mpu9250/mpu9250.c)

    A shallow embedding of the driver: the two bus helpers [IIC_WriteReg] and
    [IIC_ReadReg], the initialization sequence [init_mpu9250], the two
    acquisition routines [read_mpu9250] and [read_magnetometer], and [main].

    The Xilinx primitives ([XIic_Initialize], [XIic_Send], [XIic_Recv]), the
    console and the timer are outside the repository.  They are modelled as
    an arbitrary environment ([world]) that answers every call, and every
    call the program makes is recorded, in order, in a log of [event]s. *)

From Stdlib Require Import String Ascii ZArith List Bool Lia QArith Qround Qabs.
From Stdlib Require Import Floats.SpecFloat Lqa.
Import ListNotations.

Local Open Scope Z_scope.

(** ** Machine integers *)

(** A value stored in a [uint8_t]. *)
Definition uint8 (z : Z) : Z := z mod 256.

(** Conversion of an [int] to [int16_t] (two's complement wrap-around). *)
Definition int16 (z : Z) : Z := (z + 32768) mod 65536 - 32768.

(** [buf[i]] for a byte buffer. *)
Definition byte_at (buf : list Z) (i : nat) : Z := nth i buf 0.

(** ** Single-precision arithmetic

    The C type [float] is IEEE 754 binary32: 24 bits of precision, maximal
    exponent 128, every operation rounded to nearest-even. *)
Module F32.

Definition prec : Z := 24.
Definition emax : Z := 128.

(** Conversion of an integer to [float]. *)
Definition of_int (z : Z) : spec_float := binary_normalize prec emax z 0 false.

Definition add : spec_float -> spec_float -> spec_float := SFadd prec emax.
Definition mul : spec_float -> spec_float -> spec_float := SFmul prec emax.
Definition div : spec_float -> spec_float -> spec_float := SFdiv prec emax.

(** The literal [n/d] written in decimal with suffix [f]: the binary32
    number nearest to the rational [n/d]. *)
Definition literal (n d : Z) : spec_float := div (of_int n) (of_int d).

(** The rational value of a finite number. *)
Definition to_Q (x : spec_float) : Q :=
  match x with
  | S754_finite s m e =>
      let v := match e with
               | Zneg p => Z.pos m # (2 ^ p)
               | _ => inject_Z (Z.pos m * 2 ^ e)
               end in
      if s then Qopp v else v
  | _ => 0%Q
  end.

Definition is_finite (x : spec_float) : bool :=
  match x with
  | S754_finite _ _ _ | S754_zero _ => true
  | _ => false
  end.

(** What a [%.<d>f] conversion prints, as an integer number of units
    [10^-d]: the decimal nearest to the value, the even one on a tie. *)
Definition printed (d : Z) (x : spec_float) : Z :=
  let q := (to_Q x * inject_Z (10 ^ d))%Q in
  let n := Qfloor q in
  match Qcompare (q - inject_Z n) (1 # 2) with
  | Lt => n
  | Gt => n + 1
  | Eq => if Z.even n then n else n + 1
  end.

End F32.

(** ** Constants of the driver *)

Definition MPU_ADDR : Z := 0x68.
Definition MAG_ADDR : Z := 0x0C.

Definition ACCEL_SENS : spec_float := Eval vm_compute in F32.literal 4096 1.
Definition GYRO_SENS : spec_float := Eval vm_compute in F32.literal 164 10.

(** The other floating-point literals of the driver: [340.0f], [36.53f],
    [256.0f], [1.0f] and [0.15f]. *)
Definition lit_340_0f : spec_float := Eval vm_compute in F32.literal 340 1.
Definition lit_36_53f : spec_float := Eval vm_compute in F32.literal 3653 100.
Definition lit_256_0f : spec_float := Eval vm_compute in F32.literal 256 1.
Definition lit_1_0f : spec_float := Eval vm_compute in F32.literal 1 1.
Definition lit_0_15f : spec_float := Eval vm_compute in F32.literal 15 100.

(** [XST_SUCCESS] of the Xilinx status codes (xstatus.h). *)
Definition XST_SUCCESS : Z := 0.

(** The [Option] argument of [XIic_Send] and [XIic_Recv]. *)
Inductive bus_option : Type := XIIC_STOP | XIIC_REPEATED_START.

(** ** The environment and the log *)

Inductive event : Type :=
| InitPlatform
| Print (s : string)
| IicInitialize (status : Z)
| IicStart
| IicSend (dev : Z) (payload : list Z) (opt : bus_option) (ret : Z)
| IicRecv (dev : Z) (len : Z) (opt : bus_option) (ret : Z)
| Usleep (us : Z)
| PrintWhoAmI (who : Z)
| PrintASA (a0 a1 a2 : Z)
| PrintMpu (ax_g ay_g az_g temp_c gx_dps gy_dps gz_dps : spec_float)
| PrintMag (mx_uT my_uT mz_uT : spec_float).

(** The environment.  The first argument of the three functions is the
    number of events logged so far, so that the answer to a call may depend
    on everything that happened before it.
    - [XIic_Initialize] is the status of the bus initialization;
    - [XIic_Send t dev payload opt] is the value returned by the send;
    - [XIic_Recv t dev len opt] is the value returned by the receive and the
      bytes it stored at the start of the caller's buffer;
    - [stack t i] is the indeterminate content of byte [i] of a local
      buffer declared, without initializer, at time [t]. *)
Record world : Type := {
  XIic_Initialize : Z;
  XIic_Send : nat -> Z -> list Z -> bus_option -> Z;
  XIic_Recv : nat -> Z -> Z -> bus_option -> Z * list Z;
  stack : nat -> nat -> Z
}.

(** The program state: the global [ASA] array and the log. *)
Record state : Type := {
  ASA : list Z;
  log : list event
}.

(** [static uint8_t ASA[3]] is zero-initialized. *)
Definition initial_state : state := {| ASA := [0; 0; 0]; log := [] |}.

(** ** The monad of the driver *)

Definition M (A : Type) : Type := state -> A * state.

Definition ret {A} (a : A) : M A := fun s => (a, s).

Definition bind {A B} (m : M A) (k : A -> M B) : M B :=
  fun s => let (a, s') := m s in k a s'.

Declare Scope drv_scope.
Delimit Scope drv_scope with drv.
Notation "x <- m ;; k" := (bind m (fun x => k))
  (at level 61, m at next level, right associativity) : drv_scope.
Notation "' p <- m ;; k" := (bind m (fun x => let p := x in k))
  (at level 61, p pattern, m at next level, right associativity) : drv_scope.
Notation "m ;; k" := (bind m (fun _ => k))
  (at level 61, right associativity) : drv_scope.
Local Open Scope drv_scope.

Definition exec {A} (m : M A) (s : state) : state := snd (m s).
Definition result {A} (m : M A) (s : state) : A := fst (m s).

(** The number of events logged so far. *)
Definition time (s : state) : nat := List.length (log s).

(** [s] with the events [l] added to its log. *)
Definition logged (s : state) (l : list event) : state :=
  {| ASA := ASA s; log := log s ++ l |}.

(** [s] with [a] stored in the global array. *)
Definition with_ASA (a : list Z) (s : state) : state :=
  {| ASA := a; log := log s |}.

(** The events a computation adds to the log of [s]. *)
Definition emitted {A} (m : M A) (s : state) : list event :=
  skipn (time s) (log (exec m s)).

Definition emit (e : event) : M unit := fun s => (tt, logged s [e]).

Definition now : M nat := fun s => (time s, s).

Definition get_ASA : M (list Z) := fun s => (ASA s, s).

Definition set_ASA (a : list Z) : M unit := fun s => (tt, with_ASA a s).

(** Bytes written by a receive: at most [len] of them, over the start of
    the buffer. *)
Definition store_recv (buf : list Z) (len : Z) (got : list Z) : list Z :=
  let written := firstn (Z.to_nat len) (map uint8 got) in
  written ++ skipn (length written) buf.

Definition CRLF : string := String "013" (String "010" EmptyString).
Definition LFCR : string := String "010" (String "013" EmptyString).

Section Driver.

Variable w : world.

(** *** External calls *)

Definition init_platform : M unit := emit InitPlatform.
Definition print (s : string) : M unit := emit (Print s).
Definition usleep (us : Z) : M unit := emit (Usleep us).
Definition XIic_Start : M unit := emit IicStart.

Definition call_XIic_Initialize : M Z :=
  let status := XIic_Initialize w in
  emit (IicInitialize status) ;; ret status.

Definition call_XIic_Send (dev : Z) (payload : list Z) (opt : bus_option) : M Z :=
  t <- now ;;
  let r := XIic_Send w t dev payload opt in
  emit (IicSend dev payload opt r) ;; ret r.

Definition call_XIic_Recv (dev : Z) (buf : list Z) (len : Z) (opt : bus_option)
  : M (Z * list Z) :=
  t <- now ;;
  let (r, got) := XIic_Recv w t dev len opt in
  emit (IicRecv dev len opt r) ;; ret (r, store_recv buf len got).

(** A local array of [n] bytes declared without initializer. *)
Definition uninitialized (n : nat) : M (list Z) :=
  t <- now ;; ret (map (fun i => uint8 (stack w t i)) (seq 0 n)).

(** *** Bus helpers (mpu9250.c, lines 95-132) *)

Definition IIC_WriteReg (DevAddr RegAddr Data : Z) : M Z :=
  let buffer := [RegAddr; Data] in
  call_XIic_Send DevAddr buffer XIIC_STOP.

Definition IIC_ReadReg (DevAddr RegAddr : Z) (buf : list Z) (len : Z)
  : M (Z * list Z) :=
  status <- call_XIic_Send DevAddr [RegAddr] XIIC_REPEATED_START ;;
  if negb (status =? 1) then ret (status, buf)
  else call_XIic_Recv DevAddr buf len XIIC_STOP.

(** *** Initialization (mpu9250.c, lines 148-197) *)

(** [IIC_ReadReg(MAG_ADDR, 0x10, ASA, 3)]: the global array is the
    buffer of the read. *)
Definition read_ASA : M unit :=
  asa <- get_ASA ;;
  '(_, asa') <- IIC_ReadReg MAG_ADDR 0x10 asa 3 ;;
  set_ASA asa'.

(** Lines 159-161. *)
Definition wake_mpu : M unit :=
  IIC_WriteReg MPU_ADDR 0x6B 0x00 ;;
  usleep 1000.

(** Lines 163-168. *)
Definition configure_mpu : M unit :=
  IIC_WriteReg MPU_ADDR 0x1A 0x03 ;;
  IIC_WriteReg MPU_ADDR 0x1B 0x18 ;;
  IIC_WriteReg MPU_ADDR 0x1C 0x10 ;;
  IIC_WriteReg MPU_ADDR 0x1D 0x03 ;;
  IIC_WriteReg MPU_ADDR 0x19 0x07 ;;
  ret tt.

(** Lines 170-172. *)
Definition enable_bypass : M unit :=
  IIC_WriteReg MPU_ADDR 0x37 0x02 ;;
  usleep 1000.

(** Lines 174-181: power-down, fuse-ROM mode, read of the three bytes. *)
Definition read_fuse_rom : M unit :=
  IIC_WriteReg MAG_ADDR 0x0A 0x00 ;;
  usleep 1000 ;;
  IIC_WriteReg MAG_ADDR 0x0A 0x0F ;;
  usleep 1000 ;;
  read_ASA.

(** Lines 183-184. *)
Definition power_down_magnetometer : M unit :=
  IIC_WriteReg MAG_ADDR 0x0A 0x00 ;;
  usleep 1000.

(** Lines 186-189. *)
Definition report_who_am_i : M unit :=
  let who := [0] in
  '(_, who) <- IIC_ReadReg MAG_ADDR 0x00 who 1 ;;
  emit (PrintWhoAmI (byte_at who 0)).

(** Lines 191-192. *)
Definition configure_magnetometer : M unit :=
  IIC_WriteReg MAG_ADDR 0x0A 0x16 ;;
  ret tt.

(** Lines 194-196. *)
Definition confirm_ASA : M unit :=
  read_ASA ;;
  asa <- get_ASA ;;
  emit (PrintASA (byte_at asa 0) (byte_at asa 1) (byte_at asa 2)).

(** Lines 157-196: what [init_mpu9250] does once the bus is initialized. *)
Definition init_sequence : M unit :=
  XIic_Start ;;
  wake_mpu ;;
  configure_mpu ;;
  enable_bypass ;;
  read_fuse_rom ;;
  power_down_magnetometer ;;
  report_who_am_i ;;
  configure_magnetometer ;;
  confirm_ASA.

Definition init_mpu9250 : M unit :=
  Status <- call_XIic_Initialize ;;
  if negb (Status =? XST_SUCCESS) then
    print ("Error inicializando IIC" ++ CRLF)
  else
    init_sequence.

(** *** Accelerometer, temperature, gyroscope (lines 211-241) *)

Record mpu_raw : Type := {
  ax : Z; ay : Z; az : Z; temp : Z; gx : Z; gy : Z; gz : Z
}.

(** Lines 220-226. *)
Definition mpu_assemble (data : list Z) : mpu_raw := {|
  ax := int16 (Z.lor (Z.shiftl (byte_at data 0) 8) (byte_at data 1));
  ay := int16 (Z.lor (Z.shiftl (byte_at data 2) 8) (byte_at data 3));
  az := int16 (Z.lor (Z.shiftl (byte_at data 4) 8) (byte_at data 5));
  temp := int16 (Z.lor (Z.shiftl (byte_at data 6) 8) (byte_at data 7));
  gx := int16 (Z.lor (Z.shiftl (byte_at data 8) 8) (byte_at data 9));
  gy := int16 (Z.lor (Z.shiftl (byte_at data 10) 8) (byte_at data 11));
  gz := int16 (Z.lor (Z.shiftl (byte_at data 12) 8) (byte_at data 13))
|}.

(** Lines 228-236. *)
Definition accel_g (raw : Z) : spec_float :=
  F32.div (F32.of_int raw) ACCEL_SENS.

Definition temp_c (raw : Z) : spec_float :=
  F32.add (F32.div (F32.of_int raw) lit_340_0f) lit_36_53f.

Definition gyro_dps (raw : Z) : spec_float :=
  F32.div (F32.of_int raw) GYRO_SENS.

(** Lines 238-240: the line printed for the seven values. *)
Definition mpu_line (r : mpu_raw) : event :=
  PrintMpu (accel_g (ax r)) (accel_g (ay r)) (accel_g (az r))
           (temp_c (temp r))
           (gyro_dps (gx r)) (gyro_dps (gy r)) (gyro_dps (gz r)).

Definition read_mpu9250 : M unit :=
  data <- uninitialized 14 ;;
  '(n, data) <- IIC_ReadReg MPU_ADDR 0x3B data 14 ;;
  if negb (n =? 14) then
    print ("Error leyendo datos del MPU" ++ CRLF)
  else
    emit (mpu_line (mpu_assemble data)).

(** *** Magnetometer (lines 252-283) *)

Record mag_raw : Type := { mx : Z; my : Z; mz : Z }.

(** Lines 270-272. *)
Definition mag_assemble (data : list Z) : mag_raw := {|
  mx := int16 (Z.lor (Z.shiftl (byte_at data 1) 8) (byte_at data 0));
  my := int16 (Z.lor (Z.shiftl (byte_at data 3) 8) (byte_at data 2));
  mz := int16 (Z.lor (Z.shiftl (byte_at data 5) 8) (byte_at data 4))
|}.

(** Lines 274-276. *)
Definition adj (asa : Z) : spec_float :=
  F32.add (F32.div (F32.of_int (asa - 128)) lit_256_0f) lit_1_0f.

(** Lines 278-280. *)
Definition mag_uT (raw asa : Z) : spec_float :=
  F32.mul (F32.mul (F32.of_int raw) (adj asa)) lit_0_15f.

(** Lines 274-282: the line printed for the three axes. *)
Definition mag_line (asa : list Z) (r : mag_raw) : event :=
  PrintMag (mag_uT (mx r) (byte_at asa 0))
           (mag_uT (my r) (byte_at asa 1))
           (mag_uT (mz r) (byte_at asa 2)).

Definition read_magnetometer : M unit :=
  st1 <- uninitialized 1 ;;
  '(_, st1) <- IIC_ReadReg MAG_ADDR 0x02 st1 1 ;;
  if Z.land (byte_at st1 0) 0x01 =? 0 then
    ret tt
  else
    data <- uninitialized 7 ;;
    '(n, data) <- IIC_ReadReg MAG_ADDR 0x03 data 7 ;;
    if negb (n =? 7) then
      print ("Error leyendo datos del magnetometro" ++ CRLF)
    else if negb (Z.land (byte_at data 6) 0x08 =? 0) then
      ret tt
    else
      asa <- get_ASA ;;
      emit (mag_line asa (mag_assemble data)).

(** *** Main (lines 64-79) *)

(** One turn of the [while (1)] loop. *)
Definition acquisition_cycle : M unit :=
  read_mpu9250 ;;
  read_magnetometer ;;
  usleep 1000000.

(** The first [n] turns of the loop. *)
Fixpoint acquisition_loop (n : nat) : M unit :=
  match n with
  | O => ret tt
  | S k => acquisition_cycle ;; acquisition_loop k
  end.

(** [main], observed for [n] turns of its loop, which never exits. *)
Definition main (n : nat) : M unit :=
  init_platform ;;
  print ("Iniciando MPU9250..." ++ LFCR) ;;
  init_mpu9250 ;;
  acquisition_loop n.

End Driver.

(** ** Vocabulary of the properties *)

(** Computations that only add events to the log. *)
Definition appends {A} (m : M A) : Prop :=
  forall s, exists l, log (exec m s) = log s ++ l.

(** Computations that leave the global [ASA] array alone. *)
Definition keeps_ASA {A} (m : M A) : Prop :=
  forall s, ASA (exec m s) = ASA s.

(** Diagnostic messages written with [print]. *)
Definition is_print (e : event) : bool :=
  match e with Print _ => true | _ => false end.

Definition is_print_mpu (e : event) : bool :=
  match e with PrintMpu _ _ _ _ _ _ _ => true | _ => false end.

Definition is_print_mag (e : event) : bool :=
  match e with PrintMag _ _ _ => true | _ => false end.

Definition is_recv (e : event) : bool :=
  match e with IicRecv _ _ _ _ => true | _ => false end.

(** The send requests of a log, without the values they returned. *)
Fixpoint sends (l : list event) : list (Z * list Z * bus_option) :=
  match l with
  | [] => []
  | IicSend dev payload opt _ :: l' => (dev, payload, opt) :: sends l'
  | _ :: l' => sends l'
  end.

(** The register writes of a log: device, register, value. *)
Fixpoint writes (l : list event) : list (Z * Z * Z) :=
  match l with
  | [] => []
  | IicSend dev [reg; val] XIIC_STOP _ :: l' => (dev, reg, val) :: writes l'
  | _ :: l' => writes l'
  end.

(** *** Environments used as concrete inputs *)

(** A bus on which every transfer is complete and every byte read is [b];
    [init_status] is what the bus initialization returns. *)
Definition nominal_world (init_status : Z) (b : Z) : world := {|
  XIic_Initialize := init_status;
  XIic_Send := fun _ _ payload _ => Z.of_nat (List.length payload);
  XIic_Recv := fun _ _ len _ => (len, repeat b (Z.to_nat len));
  stack := fun _ _ => 0
|}.

(** A bus on which every transfer is complete and the bytes read change
    with time. *)
Definition drifting_world : world := {|
  XIic_Initialize := XST_SUCCESS;
  XIic_Send := fun _ _ payload _ => Z.of_nat (List.length payload);
  XIic_Recv := fun t _ len _ => (len, repeat (Z.of_nat t) (Z.to_nat len));
  stack := fun _ _ => 0
|}.

(** A bus without devices: no byte is ever transferred. *)
Definition absent_device_world : world := {|
  XIic_Initialize := XST_SUCCESS;
  XIic_Send := fun _ _ _ _ => 0;
  XIic_Recv := fun _ _ _ _ => (0, []);
  stack := fun _ _ => 0
|}.

(** A bus on which every transfer is complete.  The sensor answers the
    burst read with the raw values 4096, -4096, 0 for the accelerometer, 0 for
    the temperature and 1640, 0, 0 for the gyroscope; the magnetometer
    answers status 1, the raw values 100, -100, 0 without overflow, and the
    adjustment bytes 128, 128, 128. *)
Definition sample_world : world := {|
  XIic_Initialize := XST_SUCCESS;
  XIic_Send := fun _ _ payload _ => Z.of_nat (List.length payload);
  XIic_Recv := fun _ _ len _ =>
    (len,
     if len =? 14 then
       [0x10; 0x00; 0xF0; 0x00; 0x00; 0x00; 0x00; 0x00;
        0x06; 0x68; 0x00; 0x00; 0x00; 0x00]
     else if len =? 7 then [0x64; 0x00; 0x9C; 0xFF; 0x00; 0x00; 0x10]
     else if len =? 3 then [128; 128; 128]
     else [0x01]);
  stack := fun _ _ => 0
|}.

(** *** Parts of the routines *)

(** Lines 157-181 of [init_mpu9250], up to the read of the fuse ROM, and
    lines 183-196, what follows it. *)
Definition init_through_fuse_rom (w : world) : M unit :=
  XIic_Start ;;
  wake_mpu w ;;
  configure_mpu w ;;
  enable_bypass w ;;
  read_fuse_rom w.

Definition init_after_fuse_rom (w : world) : M unit :=
  power_down_magnetometer w ;;
  report_who_am_i w ;;
  configure_magnetometer w ;;
  confirm_ASA w.

(** The registers written by the register writes of a log. *)
Definition registers_written (l : list event) : list Z :=
  map (fun x => snd (fst x)) (writes l).

(** Lines 213-215: the local buffer and the burst read of [read_mpu9250]. *)
Definition burst_read (w : world) : M (Z * list Z) :=
  data <- uninitialized w 14 ;;
  IIC_ReadReg w MPU_ADDR 0x3B data 14.

(** Lines 254-255: the status byte and its read in [read_magnetometer]. *)
Definition status_read (w : world) : M (Z * list Z) :=
  st1 <- uninitialized w 1 ;;
  IIC_ReadReg w MAG_ADDR 0x02 st1 1.

(** Lines 260-262: the local buffer and the data read of
    [read_magnetometer]. *)
Definition data_read (w : world) : M (Z * list Z) :=
  data <- uninitialized w 7 ;;
  IIC_ReadReg w MAG_ADDR 0x03 data 7.

(** The requests of the initialization sequence, in order. *)
Definition init_requests : list (Z * list Z * bus_option) :=
  [ (MPU_ADDR, [0x6B; 0x00], XIIC_STOP);
    (MPU_ADDR, [0x1A; 0x03], XIIC_STOP);
    (MPU_ADDR, [0x1B; 0x18], XIIC_STOP);
    (MPU_ADDR, [0x1C; 0x10], XIIC_STOP);
    (MPU_ADDR, [0x1D; 0x03], XIIC_STOP);
    (MPU_ADDR, [0x19; 0x07], XIIC_STOP);
    (MPU_ADDR, [0x37; 0x02], XIIC_STOP);
    (MAG_ADDR, [0x0A; 0x00], XIIC_STOP);
    (MAG_ADDR, [0x0A; 0x0F], XIIC_STOP);
    (MAG_ADDR, [0x10], XIIC_REPEATED_START);
    (MAG_ADDR, [0x0A; 0x00], XIIC_STOP);
    (MAG_ADDR, [0x00], XIIC_REPEATED_START);
    (MAG_ADDR, [0x0A; 0x16], XIIC_STOP);
    (MAG_ADDR, [0x10], XIIC_REPEATED_START) ].

(** The signed 16-bit number whose most significant byte is [hi] and whose
    least significant byte is [lo]. *)
Definition msb_first (hi lo : Z) : Z :=
  let u := 256 * hi + lo in
  if u <? 32768 then u else u - 65536.

Definition is_byte (b : Z) : Prop := 0 <= b < 256.

(** [p] holds from [lo] on, for [n] consecutive integers. *)
Fixpoint forall_from (lo : Z) (n : nat) (p : Z -> bool) : bool :=
  match n with
  | O => true
  | S k => p lo && forall_from (lo + 1) k p
  end.

(** A finite number whose value is exactly [q]. *)
Definition exactly (x : spec_float) (q : Q) : bool :=
  F32.is_finite x && Qeq_bool (F32.to_Q x) q.

(** A finite number whose value is within [eps] of [q]. *)
Definition within (eps : Q) (x : spec_float) (q : Q) : bool :=
  F32.is_finite x && Qle_bool (Qabs (F32.to_Q x - q)) eps.

(** *** Counting events *)

(** The pause that ends a turn of the loop: [usleep(1000000)]. *)
Definition is_cadence_sleep (e : event) : bool :=
  match e with Usleep us => us =? 1000000 | _ => false end.

Definition is_usleep (e : event) : bool :=
  match e with Usleep _ => true | _ => false end.

(** The address phase of a read of register [reg] of device [dev]. *)
Definition is_request (dev reg : Z) (e : event) : bool :=
  match e with
  | IicSend d [r] XIIC_REPEATED_START _ => (d =? dev) && (r =? reg)
  | _ => false
  end.

(** The calls and reports that belong to the start of the program. *)
Definition is_setup (e : event) : bool :=
  match e with
  | InitPlatform | IicInitialize _ | IicStart | PrintWhoAmI _ | PrintASA _ _ _ => true
  | _ => false
  end.

(** The message [msg] written with [print]. *)
Definition reports (msg : string) (e : event) : bool :=
  match e with Print s => String.eqb s msg | _ => false end.

(** The number of events of a log that satisfy [p]. *)
Definition count (p : event -> bool) (l : list event) : nat :=
  List.length (filter p l).

(** The time spent in pauses, in microseconds. *)
Fixpoint slept (l : list event) : Z :=
  match l with
  | [] => 0
  | Usleep us :: l' => us + slept l'
  | _ :: l' => slept l'
  end.

(** The global array holds three bytes. *)
Definition ASA_ok (s : state) : Prop :=
  List.length (ASA s) = 3%nat /\ Forall is_byte (ASA s).

(** The values of a sample, in the order they are assembled. *)
Definition mpu_fields (r : mpu_raw) : list Z :=
  [ax r; ay r; az r; temp r; gx r; gy r; gz r].

Definition mag_fields (r : mag_raw) : list Z := [mx r; my r; mz r].

(** A positive finite number. *)
Definition is_positive (x : spec_float) : bool :=
  match x with S754_finite false _ _ => true | _ => false end.

(** *** The discipline of the bus *)

Definition is_device (d : Z) : bool := (d =? MPU_ADDR) || (d =? MAG_ADDR).

Definition byte_payload (p : list Z) : bool :=
  forallb (fun b => (0 <=? b) && (b <? 256)) p.

(** A transfer as the driver makes them: a register and a value written to
    one of the two devices and closed by a stop, a register address written
    to one of them with the bus held, or a receive of at least one byte from
    one of them closed by a stop.  Events that are no transfer pass. *)
Definition well_formed (e : event) : bool :=
  match e with
  | IicSend d ([_; _] as p) XIIC_STOP _ => is_device d && byte_payload p
  | IicSend d ([_] as p) XIIC_REPEATED_START _ => is_device d && byte_payload p
  | IicSend _ _ _ _ => false
  | IicRecv d len XIIC_STOP _ => is_device d && (0 <? len)
  | IicRecv _ _ _ _ => false
  | _ => true
  end.

(** [paired held l]: in [l] every receive comes directly after an address
    phase to the same device that transferred its one byte, and every such
    address phase is directly followed by a receive.  [held] is the device
    of an address phase still waiting for its receive. *)
Fixpoint paired (held : option Z) (l : list event) : bool :=
  match l with
  | [] => match held with None => true | Some _ => false end
  | e :: l' =>
    match held, e with
    | Some d, IicRecv d' _ _ _ => (d =? d') && paired None l'
    | Some _, _ => false
    | None, IicRecv _ _ _ _ => false
    | None, IicSend d _ XIIC_REPEATED_START r =>
        paired (if r =? 1 then Some d else None) l'
    | None, _ => paired None l'
    end
  end.

Definition disciplined (l : list event) : Prop :=
  forallb well_formed l = true /\ paired None l = true.

(** ** Reasoning about runs *)

Lemma skipn_length_app {A} (l l' : list A) : skipn (List.length l) (l ++ l') = l'.
Proof. induction l; simpl; auto. Qed.

Lemma logged_logged (s : state) (l1 l2 : list event) :
  logged (logged s l1) l2 = logged s (l1 ++ l2).
Proof. unfold logged; cbn. now rewrite app_assoc. Qed.

Lemma time_logged (s : state) (l : list event) :
  time (logged s l) = (time s + List.length l)%nat.
Proof. unfold time, logged; cbn. apply length_app. Qed.

Section Runs.

Variable w : world.

Lemma run_bind {A B} (m : M A) (k : A -> M B) (s : state) :
  bind m k s = k (fst (m s)) (snd (m s)).
Proof. unfold bind. now destruct (m s). Qed.

Lemma run_emit (e : event) (s : state) : emit e s = (tt, logged s [e]).
Proof. reflexivity. Qed.

Lemma run_WriteReg (d r v : Z) (s : state) :
  IIC_WriteReg w d r v s =
  let n := XIic_Send w (time s) d [r; v] XIIC_STOP in
  (n, logged s [IicSend d [r; v] XIIC_STOP n]).
Proof. reflexivity. Qed.

Lemma run_ReadReg (d r : Z) (buf : list Z) (len : Z) (s : state) :
  IIC_ReadReg w d r buf len s =
  let status := XIic_Send w (time s) d [r] XIIC_REPEATED_START in
  let rc := XIic_Recv w (time s + 1) d len XIIC_STOP in
  if status =? 1 then
    ((fst rc, store_recv buf len (snd rc)),
     logged s [IicSend d [r] XIIC_REPEATED_START status;
               IicRecv d len XIIC_STOP (fst rc)])
  else
    ((status, buf), logged s [IicSend d [r] XIIC_REPEATED_START status]).
Proof.
  unfold IIC_ReadReg, call_XIic_Send, call_XIic_Recv.
  repeat (rewrite run_bind; cbn [now emit ret fst snd]).
  destruct (XIic_Send w (time s) d [r] XIIC_REPEATED_START =? 1); cbn [negb ret].
  - repeat (rewrite run_bind; cbn [now emit ret fst snd]).
    rewrite time_logged. cbn [List.length].
    destruct (XIic_Recv w (time s + 1) d len XIIC_STOP) as [n got].
    repeat (rewrite run_bind; cbn [now emit ret fst snd]).
    now rewrite logged_logged.
  - reflexivity.
Qed.

End Runs.

(** ** Computations only add to the log *)

Lemma exec_bind {A B} (m : M A) (k : A -> M B) (s : state) :
  exec (bind m k) s = exec (k (result m s)) (exec m s).
Proof. unfold exec, result. now rewrite run_bind. Qed.

Lemma result_bind {A B} (m : M A) (k : A -> M B) (s : state) :
  result (bind m k) s = result (k (result m s)) (exec m s).
Proof. unfold exec, result. now rewrite run_bind. Qed.

Lemma appends_emitted {A} (m : M A) (s : state) :
  appends m -> log (exec m s) = log s ++ emitted m s.
Proof.
  intros H. destruct (H s) as [l Hl]. unfold emitted, time.
  rewrite Hl at 2. rewrite skipn_length_app. exact Hl.
Qed.

Lemma appends_ret {A} (a : A) : appends (ret a).
Proof. intros s. exists []. cbn. now rewrite app_nil_r. Qed.

Lemma appends_bind {A B} (m : M A) (k : A -> M B) :
  appends m -> (forall a, appends (k a)) -> appends (bind m k).
Proof.
  intros Hm Hk s. rewrite exec_bind.
  destruct (Hm s) as [l1 H1]. destruct (Hk (result m s) (exec m s)) as [l2 H2].
  exists (l1 ++ l2). now rewrite H2, H1, app_assoc.
Qed.

Lemma appends_emit (e : event) : appends (emit e).
Proof. intros s. now exists [e]. Qed.

Lemma appends_now : appends now.
Proof. intros s. exists []. cbn. now rewrite app_nil_r. Qed.

Lemma appends_get_ASA : appends get_ASA.
Proof. intros s. exists []. cbn. now rewrite app_nil_r. Qed.

Lemma appends_set_ASA (a : list Z) : appends (set_ASA a).
Proof. intros s. exists []. cbn. now rewrite app_nil_r. Qed.

Lemma appends_if {A} (b : bool) (m1 m2 : M A) :
  appends m1 -> appends m2 -> appends (if b then m1 else m2).
Proof. now destruct b. Qed.

Lemma appends_pair {A B C} (p : A * B) (k : A -> B -> M C) :
  (forall a b, appends (k a b)) -> appends (let (a, b) := p in k a b).
Proof. destruct p; auto. Qed.

Lemma emitted_bind {A B} (m : M A) (k : A -> M B) (s : state) :
  appends m -> (forall a, appends (k a)) ->
  emitted (bind m k) s = emitted m s ++ emitted (k (result m s)) (exec m s).
Proof.
  intros Hm Hk. unfold emitted at 1. rewrite exec_bind.
  rewrite (appends_emitted (k (result m s)) (exec m s) (Hk _)).
  rewrite (appends_emitted m s Hm), <- app_assoc.
  apply skipn_length_app.
Qed.

Lemma emitted_ret {A} (a : A) (s : state) : emitted (ret a) s = [].
Proof.
  unfold emitted, time. cbn. rewrite <- (app_nil_r (log s)) at 2.
  apply skipn_length_app.
Qed.

Lemma emitted_emit (e : event) (s : state) : emitted (emit e) s = [e].
Proof. unfold emitted, time. cbn. apply skipn_length_app. Qed.

Lemma keeps_ret {A} (a : A) : keeps_ASA (ret a).
Proof. now intros s. Qed.

Lemma keeps_bind {A B} (m : M A) (k : A -> M B) :
  keeps_ASA m -> (forall a, keeps_ASA (k a)) -> keeps_ASA (bind m k).
Proof. intros Hm Hk s. now rewrite exec_bind, Hk, Hm. Qed.

Lemma keeps_emit (e : event) : keeps_ASA (emit e).
Proof. now intros s. Qed.

Lemma keeps_now : keeps_ASA now.
Proof. now intros s. Qed.

Lemma keeps_get_ASA : keeps_ASA get_ASA.
Proof. now intros s. Qed.

Lemma keeps_if {A} (b : bool) (m1 m2 : M A) :
  keeps_ASA m1 -> keeps_ASA m2 -> keeps_ASA (if b then m1 else m2).
Proof. now destruct b. Qed.

Lemma keeps_pair {A B C} (p : A * B) (k : A -> B -> M C) :
  (forall a b, keeps_ASA (k a b)) -> keeps_ASA (let (a, b) := p in k a b).
Proof. destruct p; auto. Qed.

Create HintDb drv.
#[local] Hint Resolve
  @appends_ret @appends_bind appends_emit appends_now appends_get_ASA
  appends_set_ASA @appends_if @appends_pair
  @keeps_ret @keeps_bind keeps_emit keeps_now keeps_get_ASA @keeps_if @keeps_pair
  : drv.

(** Unfolds the external calls and the helpers down to the primitives of
    the monad, then closes the goal with the closure lemmas. *)
Ltac drv :=
  intros;
  cbv delta [IIC_ReadReg IIC_WriteReg uninitialized call_XIic_Recv
             call_XIic_Send call_XIic_Initialize XIic_Start usleep print
             init_platform] beta zeta;
  repeat first
    [ apply appends_bind | apply keeps_bind
    | apply appends_if | apply keeps_if
    | apply appends_pair | apply keeps_pair
    | match goal with |- forall _, _ => intro end ];
  auto with drv.

Section Closure.

Variable w : world.

Lemma appends_WriteReg d r v : appends (IIC_WriteReg w d r v).
Proof. drv. Qed.

Lemma appends_ReadReg d r buf len : appends (IIC_ReadReg w d r buf len).
Proof. drv. Qed.

Lemma appends_read_ASA : appends (read_ASA w).
Proof. unfold read_ASA. drv. Qed.

(** Every step of the initialization but the two reads into [ASA]. *)
Lemma keeps_wake_mpu : keeps_ASA (wake_mpu w).
Proof. unfold wake_mpu. drv. Qed.

Lemma keeps_configure_mpu : keeps_ASA (configure_mpu w).
Proof. unfold configure_mpu. drv. Qed.

Lemma keeps_enable_bypass : keeps_ASA (enable_bypass w).
Proof. unfold enable_bypass. drv. Qed.

Lemma keeps_power_down_magnetometer : keeps_ASA (power_down_magnetometer w).
Proof. unfold power_down_magnetometer. drv. Qed.

Lemma keeps_report_who_am_i : keeps_ASA (report_who_am_i w).
Proof. unfold report_who_am_i. drv. Qed.

Lemma keeps_configure_magnetometer : keeps_ASA (configure_magnetometer w).
Proof. unfold configure_magnetometer. drv. Qed.

Lemma appends_init_sequence : appends (init_sequence w).
Proof.
  unfold init_sequence.
  repeat (apply appends_bind; [ | intro ]);
    try apply appends_WriteReg; try apply appends_read_ASA;
    try apply appends_ReadReg; drv.
Qed.

Lemma appends_init_mpu9250 : appends (init_mpu9250 w).
Proof.
  unfold init_mpu9250.
  apply appends_bind; [ drv | intro ].
  apply appends_if; [ drv | apply appends_init_sequence ].
Qed.

Lemma appends_read_mpu9250 : appends (read_mpu9250 w).
Proof. unfold read_mpu9250. drv. Qed.

Lemma keeps_read_mpu9250 : keeps_ASA (read_mpu9250 w).
Proof. unfold read_mpu9250. drv. Qed.

Lemma appends_read_magnetometer : appends (read_magnetometer w).
Proof. unfold read_magnetometer. drv. Qed.

Lemma keeps_read_magnetometer : keeps_ASA (read_magnetometer w).
Proof. unfold read_magnetometer. drv. Qed.

Lemma appends_acquisition_cycle : appends (acquisition_cycle w).
Proof.
  unfold acquisition_cycle.
  apply appends_bind; [ apply appends_read_mpu9250 | intros _ ].
  apply appends_bind; [ apply appends_read_magnetometer | intros _ ].
  drv.
Qed.

Lemma keeps_acquisition_cycle : keeps_ASA (acquisition_cycle w).
Proof.
  unfold acquisition_cycle.
  apply keeps_bind; [ apply keeps_read_mpu9250 | intros _ ].
  apply keeps_bind; [ apply keeps_read_magnetometer | intros _ ].
  drv.
Qed.

Lemma appends_acquisition_loop n : appends (acquisition_loop w n).
Proof.
  induction n as [ | n IH]; cbn [acquisition_loop].
  - apply appends_ret.
  - apply appends_bind; [ apply appends_acquisition_cycle | intros _; exact IH ].
Qed.

Lemma keeps_acquisition_loop n : keeps_ASA (acquisition_loop w n).
Proof.
  induction n as [ | n IH]; cbn [acquisition_loop].
  - apply keeps_ret.
  - apply keeps_bind; [ apply keeps_acquisition_cycle | intros _; exact IH ].
Qed.

End Closure.

(** ** Observations on logs *)

Lemma sends_app (l1 l2 : list event) : sends (l1 ++ l2) = sends l1 ++ sends l2.
Proof.
  induction l1 as [ | e l1 IH]; [ reflexivity | ].
  destruct e; cbn [app sends]; now rewrite IH.
Qed.

(** Symbolic execution of straight-line code from a state [s]. *)
Ltac run :=
  repeat first
    [ rewrite run_bind
    | rewrite run_WriteReg
    | rewrite run_emit
    | rewrite logged_logged
    | rewrite time_logged
    | progress cbv delta [usleep print XIic_Start init_platform]
    | progress cbn [fst snd app List.length ret] ].

Section Steps.

Variable w : world.

Lemma run_configure_mpu (s : state) :
  configure_mpu w s =
  (tt, logged s
    [IicSend MPU_ADDR [0x1A; 0x03] XIIC_STOP
       (XIic_Send w (time s) MPU_ADDR [0x1A; 0x03] XIIC_STOP);
     IicSend MPU_ADDR [0x1B; 0x18] XIIC_STOP
       (XIic_Send w (time s + 1) MPU_ADDR [0x1B; 0x18] XIIC_STOP);
     IicSend MPU_ADDR [0x1C; 0x10] XIIC_STOP
       (XIic_Send w (time s + 2) MPU_ADDR [0x1C; 0x10] XIIC_STOP);
     IicSend MPU_ADDR [0x1D; 0x03] XIIC_STOP
       (XIic_Send w (time s + 3) MPU_ADDR [0x1D; 0x03] XIIC_STOP);
     IicSend MPU_ADDR [0x19; 0x07] XIIC_STOP
       (XIic_Send w (time s + 4) MPU_ADDR [0x19; 0x07] XIIC_STOP)]).
Proof. unfold configure_mpu. run. reflexivity. Qed.

Lemma run_read_ASA (s : state) :
  read_ASA w s =
  let status := XIic_Send w (time s) MAG_ADDR [0x10] XIIC_REPEATED_START in
  let rc := XIic_Recv w (time s + 1) MAG_ADDR 3 XIIC_STOP in
  if status =? 1 then
    (tt, logged (with_ASA (store_recv (ASA s) 3 (snd rc)) s)
           [IicSend MAG_ADDR [0x10] XIIC_REPEATED_START status;
            IicRecv MAG_ADDR 3 XIIC_STOP (fst rc)])
  else
    (tt, logged s [IicSend MAG_ADDR [0x10] XIIC_REPEATED_START status]).
Proof.
  unfold read_ASA. rewrite run_bind. cbn [get_ASA fst snd].
  rewrite run_bind, run_ReadReg. cbv zeta.
  destruct (XIic_Send w (time s) MAG_ADDR [16] XIIC_REPEATED_START =? 1);
    reflexivity.
Qed.

Lemma emitted_run {A} (m : M A) (s : state) (l : list event) :
  log (exec m s) = log s ++ l -> emitted m s = l.
Proof. unfold emitted, time. intros ->. apply skipn_length_app. Qed.

Lemma emitted_WriteReg (d r v : Z) (s : state) :
  emitted (IIC_WriteReg w d r v) s =
  [IicSend d [r; v] XIIC_STOP (XIic_Send w (time s) d [r; v] XIIC_STOP)].
Proof. apply emitted_run. reflexivity. Qed.

Lemma emitted_ReadReg (d r : Z) (buf : list Z) (len : Z) (s : state) :
  emitted (IIC_ReadReg w d r buf len) s =
  let status := XIic_Send w (time s) d [r] XIIC_REPEATED_START in
  IicSend d [r] XIIC_REPEATED_START status ::
  (if status =? 1
   then [IicRecv d len XIIC_STOP (fst (XIic_Recv w (time s + 1) d len XIIC_STOP))]
   else []).
Proof.
  apply emitted_run. unfold exec. rewrite run_ReadReg. cbv zeta.
  destruct (XIic_Send w (time s) d [r] XIIC_REPEATED_START =? 1); reflexivity.
Qed.

Lemma emitted_get_ASA (s : state) : emitted get_ASA s = [].
Proof. apply emitted_run. cbn. now rewrite app_nil_r. Qed.

Lemma emitted_set_ASA (a : list Z) (s : state) : emitted (set_ASA a) s = [].
Proof. apply emitted_run. cbn. now rewrite app_nil_r. Qed.

Lemma sends_WriteReg (d r v : Z) (s : state) :
  sends (emitted (IIC_WriteReg w d r v) s) = [(d, [r; v], XIIC_STOP)].
Proof. now rewrite emitted_WriteReg. Qed.

Lemma sends_ReadReg (d r : Z) (buf : list Z) (len : Z) (s : state) :
  sends (emitted (IIC_ReadReg w d r buf len) s) = [(d, [r], XIIC_REPEATED_START)].
Proof.
  rewrite emitted_ReadReg. cbv zeta.
  now destruct (XIic_Send w (time s) d [r] XIIC_REPEATED_START =? 1).
Qed.

Lemma silent_WriteReg (d r v : Z) (s : state) :
  filter is_print (emitted (IIC_WriteReg w d r v) s) = [].
Proof. now rewrite emitted_WriteReg. Qed.

Lemma silent_ReadReg (d r : Z) (buf : list Z) (len : Z) (s : state) :
  filter is_print (emitted (IIC_ReadReg w d r buf len) s) = [].
Proof.
  rewrite emitted_ReadReg. cbv zeta.
  now destruct (XIic_Send w (time s) d [r] XIIC_REPEATED_START =? 1).
Qed.

(** Splits the events of a sequence into those of its calls. *)
Ltac split_emitted :=
  repeat first
    [ rewrite emitted_bind by drv
    | progress cbv beta
    | match goal with
      | |- context [match ?p with pair _ _ => _ end] => destruct p
      end ].

Ltac unfold_steps :=
  cbv delta [init_sequence wake_mpu configure_mpu enable_bypass read_fuse_rom
             power_down_magnetometer report_who_am_i configure_magnetometer
             confirm_ASA read_ASA usleep XIic_Start print].

Lemma sends_init_sequence (s : state) :
  sends (emitted (init_sequence w) s) =
  [ (MPU_ADDR, [0x6B; 0x00], XIIC_STOP);
    (MPU_ADDR, [0x1A; 0x03], XIIC_STOP);
    (MPU_ADDR, [0x1B; 0x18], XIIC_STOP);
    (MPU_ADDR, [0x1C; 0x10], XIIC_STOP);
    (MPU_ADDR, [0x1D; 0x03], XIIC_STOP);
    (MPU_ADDR, [0x19; 0x07], XIIC_STOP);
    (MPU_ADDR, [0x37; 0x02], XIIC_STOP);
    (MAG_ADDR, [0x0A; 0x00], XIIC_STOP);
    (MAG_ADDR, [0x0A; 0x0F], XIIC_STOP);
    (MAG_ADDR, [0x10], XIIC_REPEATED_START);
    (MAG_ADDR, [0x0A; 0x00], XIIC_STOP);
    (MAG_ADDR, [0x00], XIIC_REPEATED_START);
    (MAG_ADDR, [0x0A; 0x16], XIIC_STOP);
    (MAG_ADDR, [0x10], XIIC_REPEATED_START) ].
Proof.
  unfold_steps. split_emitted.
  rewrite ?sends_app, ?sends_WriteReg, ?sends_ReadReg, ?emitted_emit,
    ?emitted_get_ASA, ?emitted_set_ASA, ?emitted_ret.
  reflexivity.
Qed.

Lemma silent_init_sequence (s : state) :
  filter is_print (emitted (init_sequence w) s) = [].
Proof.
  unfold_steps. split_emitted.
  rewrite ?filter_app, ?silent_WriteReg, ?silent_ReadReg, ?emitted_emit,
    ?emitted_get_ASA, ?emitted_set_ASA, ?emitted_ret.
  reflexivity.
Qed.

End Steps.

(** ** The bus helper *)

(** C8: [IIC_ReadReg] always sends the register address with a repeated
    start.  When that send does not return 1, the helper returns its status,
    leaves the buffer alone and never calls the receive; otherwise it calls
    the receive for [len] bytes with a stop and returns what it returns. *)
Theorem IIC_ReadReg_two_phases
    (w : world) (DevAddr RegAddr : Z) (buf : list Z) (len : Z) (s : state) :
  let status := XIic_Send w (time s) DevAddr [RegAddr] XIIC_REPEATED_START in
  let rc := XIic_Recv w (time s + 1) DevAddr len XIIC_STOP in
  result (IIC_ReadReg w DevAddr RegAddr buf len) s =
    (if status =? 1 then (fst rc, store_recv buf len (snd rc)) else (status, buf)) /\
  emitted (IIC_ReadReg w DevAddr RegAddr buf len) s =
    IicSend DevAddr [RegAddr] XIIC_REPEATED_START status ::
    (if status =? 1 then [IicRecv DevAddr len XIIC_STOP (fst rc)] else []) /\
  existsb is_recv (emitted (IIC_ReadReg w DevAddr RegAddr buf len) s) = (status =? 1).
Proof.
  intros status rc. rewrite emitted_ReadReg. fold status rc.
  unfold result. rewrite run_ReadReg. cbv zeta. fold status rc.
  destruct (status =? 1); auto.
Qed.

(** ** Initialization *)

Lemma run_init_failure (w : world) (s : state) :
  XIic_Initialize w <> XST_SUCCESS ->
  init_mpu9250 w s =
  (tt, logged s [IicInitialize (XIic_Initialize w);
                 Print ("Error inicializando IIC" ++ CRLF)]).
Proof.
  intros H. apply Z.eqb_neq in H.
  unfold init_mpu9250, call_XIic_Initialize. run. rewrite H. cbn [negb]. run.
  reflexivity.
Qed.

(** C1, as amended: when the bus initialization fails, [init_mpu9250] logs
    the failure and returns at once; the bus is not started, no register is
    written or read, no pause is made and [ASA] is left alone. *)
Theorem init_mpu9250_returns_on_failure (w : world) (s : state) :
  XIic_Initialize w <> XST_SUCCESS ->
  emitted (init_mpu9250 w) s =
    [IicInitialize (XIic_Initialize w); Print ("Error inicializando IIC" ++ CRLF)] /\
  ASA (exec (init_mpu9250 w) s) = ASA s.
Proof.
  intros H. unfold exec, emitted. unfold exec. rewrite (run_init_failure w s H).
  split; [ apply skipn_length_app | reflexivity ].
Qed.

(** The bus initialization returns 1 ([XST_FAILURE]). *)
Lemma init_mpu9250_returns_on_failure_witness :
  XIic_Initialize (nominal_world 1 0) <> XST_SUCCESS /\
  emitted (init_mpu9250 (nominal_world 1 0)) initial_state =
    [IicInitialize 1; Print ("Error inicializando IIC" ++ CRLF)] /\
  ASA (exec (init_mpu9250 (nominal_world 1 0)) initial_state) = [0; 0; 0].
Proof.
  assert (H : XIic_Initialize (nominal_world 1 0) <> XST_SUCCESS)
    by (vm_compute; discriminate).
  split; [ exact H | ].
  exact (init_mpu9250_returns_on_failure (nominal_world 1 0) initial_state H).
Defined.

(** C1, as stated, fails: [main] does not look at the outcome of
    [init_mpu9250].  After a failed bus initialization the first turn of the
    loop reads the sensor, reads the magnetometer status and sleeps. *)
Lemma main_enters_loop_after_failed_initialization :
  XIic_Initialize (nominal_world 1 0) <> XST_SUCCESS /\
  log (exec (main (nominal_world 1 0) 1) initial_state) =
    [ InitPlatform;
      Print ("Iniciando MPU9250..." ++ LFCR);
      IicInitialize 1;
      Print ("Error inicializando IIC" ++ CRLF);
      IicSend MPU_ADDR [0x3B] XIIC_REPEATED_START 1;
      IicRecv MPU_ADDR 14 XIIC_STOP 14;
      PrintMpu (accel_g 0) (accel_g 0) (accel_g 0) (temp_c 0)
               (gyro_dps 0) (gyro_dps 0) (gyro_dps 0);
      IicSend MAG_ADDR [0x02] XIIC_REPEATED_START 1;
      IicRecv MAG_ADDR 1 XIIC_STOP 1;
      Usleep 1000000 ].
Proof. split; [ vm_compute; discriminate | vm_compute; reflexivity ]. Qed.

(** C9, as amended: the configuration step writes five registers of the
    primary device, in this order: 0x1A, 0x1B, 0x1C, 0x1D and 0x19, with the
    values 0x03, 0x18, 0x10, 0x03 and 0x07, and does nothing else. *)
Theorem configure_mpu_writes_five_registers (w : world) (s : state) :
  writes (emitted (configure_mpu w) s) =
    [ (MPU_ADDR, 0x1A, 0x03);
      (MPU_ADDR, 0x1B, 0x18);
      (MPU_ADDR, 0x1C, 0x10);
      (MPU_ADDR, 0x1D, 0x03);
      (MPU_ADDR, 0x19, 0x07) ] /\
  List.length (emitted (configure_mpu w) s) = 5%nat.
Proof.
  rewrite (emitted_run (configure_mpu w) s _
             (f_equal (fun p => log (snd p)) (run_configure_mpu w s))).
  split; reflexivity.
Qed.

(** C9, as stated, fails: register 0x1D is written too, and it is not one
    of the four registers of the claim. *)
Lemma configure_mpu_writes_0x1D :
  In 0x1D (registers_written (emitted (configure_mpu (nominal_world 0 0)) initial_state)) /\
  ~ In 0x1D [0x1A; 0x1B; 0x1C; 0x19].
Proof.
  split.
  - vm_compute. tauto.
  - cbn. intros [H | [H | [H | [H | []]]]]; discriminate H.
Qed.

(** ** The acquisition routines *)

Lemma run_read_mpu9250 (w : world) (s : state) :
  read_mpu9250 w s =
  let n := fst (result (burst_read w) s) in
  let data := snd (result (burst_read w) s) in
  (tt, logged (exec (burst_read w) s)
         [if n =? 14 then mpu_line (mpu_assemble data)
          else Print ("Error leyendo datos del MPU" ++ CRLF)]).
Proof.
  unfold read_mpu9250, burst_read, result, exec.
  rewrite !run_bind.
  destruct (IIC_ReadReg w MPU_ADDR 59 _ 14 _) as [[n data] s1].
  cbn [fst snd].
  destruct (n =? 14); reflexivity.
Qed.

Lemma run_read_magnetometer (w : world) (s : state) :
  read_magnetometer w s =
  let st1 := byte_at (snd (result (status_read w) s)) 0 in
  let s1 := exec (status_read w) s in
  let n := fst (result (data_read w) s1) in
  let data := snd (result (data_read w) s1) in
  let s2 := exec (data_read w) s1 in
  if Z.land st1 0x01 =? 0 then (tt, s1)
  else if negb (n =? 7) then
    (tt, logged s2 [Print ("Error leyendo datos del magnetometro" ++ CRLF)])
  else if negb (Z.land (byte_at data 6) 0x08 =? 0) then (tt, s2)
  else (tt, logged s2 [mag_line (ASA s2) (mag_assemble data)]).
Proof.
  unfold read_magnetometer, status_read, data_read, result, exec.
  rewrite !run_bind.
  destruct (IIC_ReadReg w MAG_ADDR 2 _ 1 _) as [[r st1] s1].
  cbn [fst snd].
  destruct (Z.land (byte_at st1 0) 1 =? 0); [ reflexivity | ].
  rewrite !run_bind.
  destruct (IIC_ReadReg w MAG_ADDR 3 _ 7 _) as [[n data] s2].
  cbn [fst snd].
  destruct (n =? 7); [ | reflexivity ].
  cbn [negb].
  destruct (Z.land (byte_at data 6) 8 =? 0); reflexivity.
Qed.

Lemma appends_burst_read (w : world) : appends (burst_read w).
Proof. unfold burst_read. drv. Qed.

Lemma appends_status_read (w : world) : appends (status_read w).
Proof. unfold status_read. drv. Qed.

Lemma appends_data_read (w : world) : appends (data_read w).
Proof. unfold data_read. drv. Qed.

Lemma keeps_status_read (w : world) : keeps_ASA (status_read w).
Proof. unfold status_read. drv. Qed.

Lemma keeps_data_read (w : world) : keeps_ASA (data_read w).
Proof. unfold data_read. drv. Qed.

Lemma emitted_burst_read (w : world) (s : state) :
  emitted (burst_read w) s =
  emitted (IIC_ReadReg w MPU_ADDR 0x3B (result (uninitialized w 14) s) 14) s.
Proof. reflexivity. Qed.

Lemma emitted_status_read (w : world) (s : state) :
  emitted (status_read w) s =
  emitted (IIC_ReadReg w MAG_ADDR 0x02 [uint8 (stack w (time s) 0)] 1) s.
Proof. reflexivity. Qed.

Lemma emitted_data_read (w : world) (s : state) :
  emitted (data_read w) s =
  emitted (IIC_ReadReg w MAG_ADDR 0x03 (result (uninitialized w 7) s) 7) s.
Proof. reflexivity. Qed.

Lemma emitted_read_mpu9250 (w : world) (s : state) :
  emitted (read_mpu9250 w) s =
  emitted (burst_read w) s ++
  [if fst (result (burst_read w) s) =? 14
   then mpu_line (mpu_assemble (snd (result (burst_read w) s)))
   else Print ("Error leyendo datos del MPU" ++ CRLF)].
Proof.
  apply emitted_run. unfold exec at 1. rewrite run_read_mpu9250. cbn [snd logged log].
  rewrite (appends_emitted _ s (appends_burst_read w)). now rewrite app_assoc.
Qed.

Lemma emitted_read_magnetometer (w : world) (s : state) :
  let st1 := byte_at (snd (result (status_read w) s)) 0 in
  let s1 := exec (status_read w) s in
  let n := fst (result (data_read w) s1) in
  let data := snd (result (data_read w) s1) in
  emitted (read_magnetometer w) s =
  emitted (status_read w) s ++
  (if Z.land st1 0x01 =? 0 then []
   else emitted (data_read w) s1 ++
        (if negb (n =? 7) then
           [Print ("Error leyendo datos del magnetometro" ++ CRLF)]
         else if negb (Z.land (byte_at data 6) 0x08 =? 0) then []
         else [mag_line (ASA s) (mag_assemble data)])).
Proof.
  intros st1 s1 n data.
  apply emitted_run. unfold exec at 1. rewrite run_read_magnetometer.
  cbv zeta. fold st1 s1 n data.
  assert (H1 : log s1 = log s ++ emitted (status_read w) s)
    by apply (appends_emitted _ s (appends_status_read w)).
  assert (H2 : log (exec (data_read w) s1)
               = (log s ++ emitted (status_read w) s) ++ emitted (data_read w) s1)
    by (rewrite <- H1; apply (appends_emitted _ s1 (appends_data_read w))).
  assert (HA : ASA (exec (data_read w) s1) = ASA s)
    by (rewrite keeps_data_read; apply keeps_status_read).
  destruct (Z.land st1 1 =? 0).
  - cbn [snd]. now rewrite app_nil_r.
  - destruct (n =? 7); cbn [negb].
    + destruct (Z.land (byte_at data 6) 8 =? 0); cbn [negb snd logged log].
      * rewrite H2, HA. now rewrite <- !app_assoc.
      * rewrite H2. now rewrite app_nil_r, <- !app_assoc.
    + cbn [snd logged log]. rewrite H2. now rewrite <- !app_assoc.
Qed.

(** What the masks of the driver test. *)
Lemma land_1_testbit (x : Z) : (Z.land x 1 =? 0) = negb (Z.testbit x 0).
Proof.
  change 1 with (Z.ones 1). rewrite Z.land_ones by lia.
  rewrite <- Z.bit0_mod. now destruct (Z.testbit x 0).
Qed.

Lemma testbit_b2z (b : bool) (j : Z) : j <> 0 -> Z.testbit (Z.b2z b) j = false.
Proof.
  intros Hj. destruct (Z.ltb_spec j 0) as [Hneg | Hpos].
  - now apply Z.testbit_neg_r.
  - destruct b; cbn [Z.b2z].
    + change 1 with (2 ^ 0). rewrite Z.pow2_bits_eqb by lia.
      apply Z.eqb_neq. lia.
    + apply Z.bits_0.
Qed.

Lemma land_8_testbit (x : Z) : (Z.land x 8 =? 0) = negb (Z.testbit x 3).
Proof.
  assert (H : Z.land x 8 = Z.shiftl (Z.b2z (Z.testbit x 3)) 3).
  { apply Z.bits_inj'. intros i Hi.
    rewrite Z.land_spec, Z.shiftl_spec by lia.
    change 8 with (2 ^ 3). rewrite Z.pow2_bits_eqb by lia.
    destruct (Z.eqb_spec 3 i) as [<- | Hne].
    - change (3 - 3) with 0. now rewrite Z.b2z_bit0, andb_true_r.
    - rewrite andb_false_r. symmetry. apply testbit_b2z. lia. }
  rewrite H. now destruct (Z.testbit x 3).
Qed.

Lemma quiet_ReadReg (w : world) (d r : Z) (buf : list Z) (len : Z) (s : state) :
  existsb is_print (emitted (IIC_ReadReg w d r buf len) s) = false /\
  existsb is_print_mag (emitted (IIC_ReadReg w d r buf len) s) = false.
Proof.
  rewrite emitted_ReadReg. cbv zeta.
  now destruct (XIic_Send w (time s) d [r] XIIC_REPEATED_START =? 1).
Qed.

(** C4: the magnetometer line is printed exactly when bit 0 of the status
    byte is set, the data read returns 7 and bit 3 of the last data byte is
    clear.  With bit 0 clear nothing follows the status read; with the data
    read complete and bit 3 set nothing follows the data read.  The only
    message of the routine reports a data read that did not return 7. *)
Theorem magnetometer_line_iff_ready_complete_no_overflow (w : world) (s : state) :
  let st1 := byte_at (snd (result (status_read w) s)) 0 in
  let s1 := exec (status_read w) s in
  let n := fst (result (data_read w) s1) in
  let data := snd (result (data_read w) s1) in
  let ready := Z.testbit st1 0 in
  let overflow := Z.testbit (byte_at data 6) 3 in
  existsb is_print_mag (emitted (read_magnetometer w) s)
    = ready && (n =? 7) && negb overflow /\
  emitted (read_magnetometer w) s =
    emitted (status_read w) s ++
    (if ready then
       emitted (data_read w) s1 ++
       (if n =? 7 then
          if overflow then [] else [mag_line (ASA s) (mag_assemble data)]
        else [Print ("Error leyendo datos del magnetometro" ++ CRLF)])
     else []) /\
  existsb is_print (emitted (read_magnetometer w) s) = ready && negb (n =? 7).
Proof.
  intros st1 s1 n data ready overflow.
  pose proof (emitted_read_magnetometer w s) as E. cbv zeta in E.
  fold st1 s1 n data in E.
  rewrite land_1_testbit, land_8_testbit in E. fold ready overflow in E.
  rewrite E, !existsb_app.
  rewrite emitted_status_read, emitted_data_read.
  destruct (quiet_ReadReg w MAG_ADDR 2 [uint8 (stack w (time s) 0)] 1 s) as [P1 Q1].
  destruct (quiet_ReadReg w MAG_ADDR 3 (result (uninitialized w 7) s1) 7 s1) as [P2 Q2].
  rewrite P1, Q1.
  destruct ready; cbn [negb andb orb existsb]; [ | auto ].
  rewrite !existsb_app, P2, Q2.
  destruct (n =? 7); cbn [negb andb orb existsb]; [ | auto ].
  destruct overflow; cbn [negb existsb is_print_mag is_print mag_line orb]; auto.
Qed.

(** ** The events of the two reads, one by one *)

Lemma result_status_read (w : world) (s : state) :
  let status := XIic_Send w (time s) MAG_ADDR [0x02] XIIC_REPEATED_START in
  let rc := XIic_Recv w (time s + 1) MAG_ADDR 1 XIIC_STOP in
  let indeterminate := uint8 (stack w (time s) 0) in
  result (status_read w) s =
    if status =? 1 then (fst rc, store_recv [indeterminate] 1 (snd rc))
    else (status, [indeterminate]).
Proof.
  cbv zeta. unfold status_read, result. rewrite run_bind.
  cbn [uninitialized bind now ret fst snd seq map].
  rewrite run_ReadReg. cbv zeta.
  now destruct (_ =? 1).
Qed.

Lemma result_burst_read (w : world) (s : state) :
  let status := XIic_Send w (time s) MPU_ADDR [0x3B] XIIC_REPEATED_START in
  let rc := XIic_Recv w (time s + 1) MPU_ADDR 14 XIIC_STOP in
  fst (result (burst_read w) s) = if status =? 1 then fst rc else status.
Proof.
  cbv zeta. unfold burst_read, result. rewrite run_bind.
  cbn [uninitialized bind now ret fst snd].
  rewrite run_ReadReg. cbv zeta.
  now destruct (_ =? 1).
Qed.

Lemma result_data_read (w : world) (s : state) :
  let status := XIic_Send w (time s) MAG_ADDR [0x03] XIIC_REPEATED_START in
  let rc := XIic_Recv w (time s + 1) MAG_ADDR 7 XIIC_STOP in
  fst (result (data_read w) s) = if status =? 1 then fst rc else status.
Proof.
  cbv zeta. unfold data_read, result. rewrite run_bind.
  cbn [uninitialized bind now ret fst snd].
  rewrite run_ReadReg. cbv zeta.
  now destruct (_ =? 1).
Qed.

Lemma events_read_mpu9250 (w : world) (s : state) :
  let status := XIic_Send w (time s) MPU_ADDR [0x3B] XIIC_REPEATED_START in
  let rc := XIic_Recv w (time s + 1) MPU_ADDR 14 XIIC_STOP in
  let n := fst (result (burst_read w) s) in
  let data := snd (result (burst_read w) s) in
  emitted (read_mpu9250 w) s =
    IicSend MPU_ADDR [0x3B] XIIC_REPEATED_START status ::
    (if status =? 1 then [IicRecv MPU_ADDR 14 XIIC_STOP (fst rc)] else []) ++
    [if n =? 14 then mpu_line (mpu_assemble data)
     else Print ("Error leyendo datos del MPU" ++ CRLF)].
Proof.
  cbv zeta. now rewrite emitted_read_mpu9250, emitted_burst_read, emitted_ReadReg.
Qed.

Lemma events_read_magnetometer (w : world) (s : state) :
  let status := XIic_Send w (time s) MAG_ADDR [0x02] XIIC_REPEATED_START in
  let rc := XIic_Recv w (time s + 1) MAG_ADDR 1 XIIC_STOP in
  let st1 := byte_at (snd (result (status_read w) s)) 0 in
  let s1 := exec (status_read w) s in
  let status' := XIic_Send w (time s1) MAG_ADDR [0x03] XIIC_REPEATED_START in
  let rc' := XIic_Recv w (time s1 + 1) MAG_ADDR 7 XIIC_STOP in
  let n := fst (result (data_read w) s1) in
  let data := snd (result (data_read w) s1) in
  emitted (read_magnetometer w) s =
    IicSend MAG_ADDR [0x02] XIIC_REPEATED_START status ::
    (if status =? 1 then [IicRecv MAG_ADDR 1 XIIC_STOP (fst rc)] else []) ++
    (if Z.testbit st1 0 then
       IicSend MAG_ADDR [0x03] XIIC_REPEATED_START status' ::
       (if status' =? 1 then [IicRecv MAG_ADDR 7 XIIC_STOP (fst rc')] else []) ++
       (if n =? 7 then
          if Z.testbit (byte_at data 6) 3 then []
          else [mag_line (ASA s) (mag_assemble data)]
        else [Print ("Error leyendo datos del magnetometro" ++ CRLF)])
     else []).
Proof.
  cbv zeta.
  pose proof (emitted_read_magnetometer w s) as E. cbv zeta in E.
  rewrite land_1_testbit, land_8_testbit in E. rewrite E. clear E.
  rewrite emitted_status_read, emitted_data_read, !emitted_ReadReg. cbv zeta.
  cbn [app]. do 2 f_equal.
  destruct (Z.testbit _ 0); cbn [negb]; [ | reflexivity ].
  cbn [app]. do 2 f_equal.
  destruct (_ =? 7); cbn [negb]; [ | reflexivity ].
  now destruct (Z.testbit _ 3).
Qed.

(** C10: the value returned by the status read is not looked at.  The
    routine makes the address phase of the status read, receives one byte
    only if that phase transferred its byte, and then goes on by bit 0 of
    the status byte alone: no message follows the status read, whatever it
    returned, and when its address phase fails the status byte still holds
    the indeterminate content of the local variable.  The data read is
    attempted exactly when bit 0 of the status byte is set, and the only
    message of the routine reports a data read that did not return 7. *)
Theorem status_read_result_is_ignored (w : world) (s : state) :
  let status := XIic_Send w (time s) MAG_ADDR [0x02] XIIC_REPEATED_START in
  let rc := XIic_Recv w (time s + 1) MAG_ADDR 1 XIIC_STOP in
  let indeterminate := uint8 (stack w (time s) 0) in
  let st1 := byte_at (snd (result (status_read w) s)) 0 in
  let s1 := exec (status_read w) s in
  let n := fst (result (data_read w) s1) in
  let data := snd (result (data_read w) s1) in
  fst (result (status_read w) s) = (if status =? 1 then fst rc else status) /\
  st1 = (if status =? 1 then byte_at (store_recv [indeterminate] 1 (snd rc)) 0
         else indeterminate) /\
  existsb is_print (emitted (status_read w) s) = false /\
  sends (emitted (read_magnetometer w) s) =
    (MAG_ADDR, [0x02], XIIC_REPEATED_START) ::
    (if Z.testbit st1 0 then [(MAG_ADDR, [0x03], XIIC_REPEATED_START)] else []) /\
  emitted (read_magnetometer w) s =
    IicSend MAG_ADDR [0x02] XIIC_REPEATED_START status ::
    (if status =? 1 then [IicRecv MAG_ADDR 1 XIIC_STOP (fst rc)] else []) ++
    (if Z.testbit st1 0 then
       emitted (data_read w) s1 ++
       (if n =? 7 then
          if Z.testbit (byte_at data 6) 3 then []
          else [mag_line (ASA s) (mag_assemble data)]
        else [Print ("Error leyendo datos del magnetometro" ++ CRLF)])
     else []) /\
  existsb is_print (emitted (data_read w) s1) = false /\
  existsb is_print (emitted (read_magnetometer w) s) =
    Z.testbit st1 0 && negb (n =? 7) /\
  time s1 = (if status =? 1 then (time s + 2)%nat else (time s + 1)%nat) /\
  ASA s1 = ASA s.
Proof.
  intros status rc indeterminate st1 s1 n data.
  pose proof (result_status_read w s) as R. cbv zeta in R.
  fold status rc indeterminate in R.
  destruct (quiet_ReadReg w MAG_ADDR 2 [indeterminate] 1 s) as [P1 _].
  destruct (quiet_ReadReg w MAG_ADDR 3 (result (uninitialized w 7) s1) 7 s1)
    as [P2 _].
  assert (E : emitted (read_magnetometer w) s =
    IicSend MAG_ADDR [0x02] XIIC_REPEATED_START status ::
    (if status =? 1 then [IicRecv MAG_ADDR 1 XIIC_STOP (fst rc)] else []) ++
    (if Z.testbit st1 0 then
       emitted (data_read w) s1 ++
       (if n =? 7 then
          if Z.testbit (byte_at data 6) 3 then []
          else [mag_line (ASA s) (mag_assemble data)]
        else [Print ("Error leyendo datos del magnetometro" ++ CRLF)])
     else [])).
  { pose proof (emitted_read_magnetometer w s) as E. cbv zeta in E.
    fold st1 s1 n data in E. rewrite land_1_testbit, land_8_testbit in E.
    rewrite E, emitted_status_read, emitted_ReadReg. cbv zeta.
    fold status rc. cbn [app]. do 2 f_equal.
    destruct (Z.testbit st1 0); cbn [negb]; [ | reflexivity ].
    f_equal. destruct (n =? 7); cbn [negb]; [ | reflexivity ].
    now destruct (Z.testbit (byte_at data 6) 3). }
  split; [ rewrite R; now destruct (status =? 1) | ].
  split; [ unfold st1; rewrite R; now destruct (status =? 1) | ].
  split; [ rewrite emitted_status_read; exact P1 | ].
  split.
  { rewrite E. cbn [sends]. rewrite sends_app. f_equal.
    destruct (status =? 1); cbn [sends app];
      (destruct (Z.testbit st1 0); [ | reflexivity ]);
      rewrite sends_app, emitted_data_read, sends_ReadReg;
      (destruct (n =? 7); [ now destruct (Z.testbit (byte_at data 6) 3) | ];
       reflexivity). }
  split; [ exact E | ].
  split; [ rewrite emitted_data_read; exact P2 | ].
  split.
  { rewrite E. cbn [existsb is_print orb]. rewrite existsb_app.
    rewrite emitted_data_read in *.
    destruct (status =? 1); cbn [existsb is_print orb];
      (destruct (Z.testbit st1 0); cbn [andb existsb]; [ | reflexivity ]);
      rewrite existsb_app, P2;
      (destruct (n =? 7); cbn [negb existsb is_print orb]; [ | reflexivity ];
       now destruct (Z.testbit (byte_at data 6) 3)). }
  unfold s1, status_read, exec. rewrite run_bind.
  cbn [uninitialized bind now ret fst snd seq map].
  rewrite run_ReadReg. cbv zeta. fold status rc.
  destruct (status =? 1); cbn [snd logged ASA log time];
    unfold time; cbn [log logged]; rewrite length_app; cbn [List.length];
    split; reflexivity || lia.
Qed.

Lemma silent_burst_read (w : world) (s : state) :
  filter is_print (emitted (burst_read w) s) = [] /\
  existsb is_print_mpu (emitted (burst_read w) s) = false /\
  sends (emitted (burst_read w) s) = [(MPU_ADDR, [0x3B], XIIC_REPEATED_START)].
Proof.
  rewrite emitted_burst_read, sends_ReadReg, silent_ReadReg, emitted_ReadReg.
  cbv zeta. now destruct (XIic_Send w (time s) MPU_ADDR [59] XIIC_REPEATED_START =? 1).
Qed.

Lemma emitted_acquisition_cycle (w : world) (s : state) :
  emitted (acquisition_cycle w) s =
  emitted (read_mpu9250 w) s ++
  emitted (read_magnetometer w) (exec (read_mpu9250 w) s) ++
  [Usleep 1000000].
Proof.
  unfold acquisition_cycle.
  rewrite emitted_bind;
    [ | apply appends_read_mpu9250
      | intro; apply appends_bind; [ apply appends_read_magnetometer | drv ] ].
  rewrite emitted_bind; [ | apply appends_read_magnetometer | drv ].
  unfold usleep. now rewrite emitted_emit.
Qed.

(** C3, as amended: a sensor read that does not return 14 and a
    magnetometer data read that does not return 7 are reported and nothing is
    converted: the message is the last event of the routine and no line of
    values is printed.  No other transfer is checked.  The initialization makes
    its fourteen requests and prints no message whatever they return; the
    status read of the magnetometer is followed by no message whatever it
    returns; every request is made once, and every turn of the loop goes on
    to the magnetometer and to the pause. *)
Theorem only_the_data_reads_are_checked (w : world) (s : state) :
  let n14 := fst (result (burst_read w) s) in
  let st1 := byte_at (snd (result (status_read w) s)) 0 in
  let n7 := fst (result (data_read w) (exec (status_read w) s)) in
  let data14 := snd (result (burst_read w) s) in
  let data7 := snd (result (data_read w) (exec (status_read w) s)) in
  let t1 := time (exec (status_read w) s) in
  let sent14 := XIic_Send w (time s) MPU_ADDR [0x3B] XIIC_REPEATED_START in
  let got14 := fst (XIic_Recv w (time s + 1) MPU_ADDR 14 XIIC_STOP) in
  let sent1 := XIic_Send w (time s) MAG_ADDR [0x02] XIIC_REPEATED_START in
  let got1 := fst (XIic_Recv w (time s + 1) MAG_ADDR 1 XIIC_STOP) in
  let sent7 := XIic_Send w t1 MAG_ADDR [0x03] XIIC_REPEATED_START in
  let got7 := fst (XIic_Recv w (t1 + 1) MAG_ADDR 7 XIIC_STOP) in
  filter is_print (emitted (init_sequence w) s) = [] /\
  sends (emitted (init_sequence w) s) = init_requests /\
  filter is_print (emitted (read_mpu9250 w) s) =
    (if n14 =? 14 then [] else [Print ("Error leyendo datos del MPU" ++ CRLF)]) /\
  existsb is_print_mpu (emitted (read_mpu9250 w) s) = (n14 =? 14) /\
  sends (emitted (read_mpu9250 w) s) = [(MPU_ADDR, [0x3B], XIIC_REPEATED_START)] /\
  filter is_print (emitted (read_magnetometer w) s) =
    (if Z.testbit st1 0 && negb (n7 =? 7)
     then [Print ("Error leyendo datos del magnetometro" ++ CRLF)] else []) /\
  emitted (acquisition_cycle w) s =
    emitted (read_mpu9250 w) s ++
    emitted (read_magnetometer w) (exec (read_mpu9250 w) s) ++
    [Usleep 1000000] /\
  n14 = (if sent14 =? 1 then got14 else sent14) /\
  n7 = (if sent7 =? 1 then got7 else sent7) /\
  emitted (read_mpu9250 w) s =
    IicSend MPU_ADDR [0x3B] XIIC_REPEATED_START sent14 ::
    (if sent14 =? 1 then [IicRecv MPU_ADDR 14 XIIC_STOP got14] else []) ++
    [if n14 =? 14 then mpu_line (mpu_assemble data14)
     else Print ("Error leyendo datos del MPU" ++ CRLF)] /\
  emitted (read_magnetometer w) s =
    IicSend MAG_ADDR [0x02] XIIC_REPEATED_START sent1 ::
    (if sent1 =? 1 then [IicRecv MAG_ADDR 1 XIIC_STOP got1] else []) ++
    (if Z.testbit st1 0 then
       IicSend MAG_ADDR [0x03] XIIC_REPEATED_START sent7 ::
       (if sent7 =? 1 then [IicRecv MAG_ADDR 7 XIIC_STOP got7] else []) ++
       (if n7 =? 7 then
          if Z.testbit (byte_at data7 6) 3 then []
          else [mag_line (ASA s) (mag_assemble data7)]
        else [Print ("Error leyendo datos del magnetometro" ++ CRLF)])
     else []) /\
  existsb is_print_mag (emitted (read_magnetometer w) s) =
    Z.testbit st1 0 && (n7 =? 7) && negb (Z.testbit (byte_at data7 6) 3) /\
  sends (emitted (read_magnetometer w) s) =
    (MAG_ADDR, [0x02], XIIC_REPEATED_START) ::
    (if Z.testbit st1 0 then [(MAG_ADDR, [0x03], XIIC_REPEATED_START)] else []).
Proof.
  intros n14 st1 n7 data14 data7 t1 sent14 got14 sent1 got1 sent7 got7.
  destruct (silent_burst_read w s) as (B1 & B2 & B3).
  split; [ apply silent_init_sequence | ].
  split; [ apply sends_init_sequence | ].
  assert (M : filter is_print (emitted (read_mpu9250 w) s) =
                (if n14 =? 14 then []
                 else [Print ("Error leyendo datos del MPU" ++ CRLF)]) /\
              existsb is_print_mpu (emitted (read_mpu9250 w) s) = (n14 =? 14) /\
              sends (emitted (read_mpu9250 w) s)
                = [(MPU_ADDR, [0x3B], XIIC_REPEATED_START)]).
  { rewrite emitted_read_mpu9250, filter_app, existsb_app, sends_app, B1, B2, B3.
    fold n14. now destruct (n14 =? 14). }
  destruct M as (M1 & M2 & M3).
  repeat (split; [ assumption | ]).
  pose proof (events_read_magnetometer w s) as G. cbv zeta in G.
  fold st1 t1 n7 data7 sent1 got1 sent7 got7 in G.
  split.
  { rewrite G. cbn [filter is_print].
    rewrite !filter_app.
    destruct (sent1 =? 1); cbn [filter is_print app];
      (destruct (Z.testbit st1 0); cbn [negb andb app filter is_print];
       [ | reflexivity ]);
      rewrite filter_app;
      (destruct (sent7 =? 1); cbn [filter is_print app];
       destruct (n7 =? 7); cbn [negb filter is_print]; try reflexivity;
       now destruct (Z.testbit (byte_at data7 6) 3)). }
  split; [ apply emitted_acquisition_cycle | ].
  split; [ apply result_burst_read | ].
  split; [ apply result_data_read | ].
  split; [ apply events_read_mpu9250 | ].
  split; [ exact G | ].
  rewrite G. split.
  - cbn [existsb is_print_mag]. rewrite existsb_app.
    destruct (sent1 =? 1); cbn [existsb is_print_mag orb];
      (destruct (Z.testbit st1 0); cbn [existsb is_print_mag andb];
       [ | reflexivity ]);
      rewrite existsb_app;
      (destruct (sent7 =? 1); cbn [existsb is_print_mag orb];
       destruct (n7 =? 7); cbn [existsb is_print_mag andb]; try reflexivity;
       now destruct (Z.testbit (byte_at data7 6) 3)).
  - cbn [sends]. rewrite sends_app. f_equal.
    destruct (sent1 =? 1); cbn [sends app];
      (destruct (Z.testbit st1 0); cbn [sends]; [ | reflexivity ]);
      rewrite sends_app;
      (destruct (sent7 =? 1); cbn [sends app];
       destruct (n7 =? 7); try reflexivity;
       now destruct (Z.testbit (byte_at data7 6) 3)).
Qed.

(** C3, as stated, fails: on a bus without devices every write of the
    initialization sends nothing; none of these failures is reported and
    every step is still attempted. *)
Lemma failed_initialization_transfers_are_not_logged :
  log (exec (init_mpu9250 absent_device_world) initial_state) =
    [ IicInitialize 0; IicStart;
      IicSend MPU_ADDR [0x6B; 0x00] XIIC_STOP 0; Usleep 1000;
      IicSend MPU_ADDR [0x1A; 0x03] XIIC_STOP 0;
      IicSend MPU_ADDR [0x1B; 0x18] XIIC_STOP 0;
      IicSend MPU_ADDR [0x1C; 0x10] XIIC_STOP 0;
      IicSend MPU_ADDR [0x1D; 0x03] XIIC_STOP 0;
      IicSend MPU_ADDR [0x19; 0x07] XIIC_STOP 0;
      IicSend MPU_ADDR [0x37; 0x02] XIIC_STOP 0; Usleep 1000;
      IicSend MAG_ADDR [0x0A; 0x00] XIIC_STOP 0; Usleep 1000;
      IicSend MAG_ADDR [0x0A; 0x0F] XIIC_STOP 0; Usleep 1000;
      IicSend MAG_ADDR [0x10] XIIC_REPEATED_START 0;
      IicSend MAG_ADDR [0x0A; 0x00] XIIC_STOP 0; Usleep 1000;
      IicSend MAG_ADDR [0x00] XIIC_REPEATED_START 0;
      PrintWhoAmI 0;
      IicSend MAG_ADDR [0x0A; 0x16] XIIC_STOP 0;
      IicSend MAG_ADDR [0x10] XIIC_REPEATED_START 0;
      PrintASA 0 0 0 ] /\
  filter is_print (log (exec (init_mpu9250 absent_device_world) initial_state)) = [].
Proof. split; vm_compute; reflexivity. Qed.

(** ** The unbounded loop

    [main w n] observes the first [n] turns of a loop that never exits: one
    more turn only adds events after those already observed. *)

Lemma acquisition_loop_succ (w : world) (n : nat) (s : state) :
  exec (acquisition_loop w (S n)) s
  = exec (acquisition_cycle w) (exec (acquisition_loop w n) s).
Proof.
  revert s. induction n as [ | n IH]; intros s.
  - cbn [acquisition_loop]. now rewrite exec_bind.
  - change (acquisition_loop w (S (S n)))
      with (acquisition_cycle w ;; acquisition_loop w (S n)).
    rewrite exec_bind, IH.
    cbn [acquisition_loop]. now rewrite exec_bind.
Qed.

Lemma main_succ (w : world) (n : nat) (s : state) :
  exists l, log (exec (main w (S n)) s) = log (exec (main w n) s) ++ l.
Proof.
  unfold main. rewrite !exec_bind, acquisition_loop_succ.
  apply appends_acquisition_cycle.
Qed.

(** ** The sensitivity adjustment bytes *)

Lemma init_sequence_split (w : world) (s : state) :
  init_sequence w s = (init_through_fuse_rom w ;; init_after_fuse_rom w) s.
Proof.
  unfold init_sequence, init_through_fuse_rom, init_after_fuse_rom.
  now rewrite !run_bind.
Qed.

Lemma ASA_read_ASA (w : world) (s : state) :
  ASA (exec (read_ASA w) s) =
  if XIic_Send w (time s) MAG_ADDR [0x10] XIIC_REPEATED_START =? 1
  then store_recv (ASA s) 3 (snd (XIic_Recv w (time s + 1) MAG_ADDR 3 XIIC_STOP))
  else ASA s.
Proof.
  unfold exec. rewrite run_read_ASA. cbv zeta.
  now destruct (XIic_Send w (time s) MAG_ADDR [16] XIIC_REPEATED_START =? 1).
Qed.

Lemma ASA_confirm_ASA (w : world) (s : state) :
  ASA (exec (confirm_ASA w) s) = ASA (exec (read_ASA w) s).
Proof. unfold confirm_ASA. now rewrite exec_bind, exec_bind. Qed.

Lemma ASA_init_after_fuse_rom (w : world) (s : state) :
  exists s', ASA s' = ASA s /\
             ASA (exec (init_after_fuse_rom w) s) = ASA (exec (read_ASA w) s').
Proof.
  unfold init_after_fuse_rom.
  rewrite !exec_bind, ASA_confirm_ASA.
  eexists. split; [ | reflexivity ].
  now rewrite keeps_configure_magnetometer, keeps_report_who_am_i,
    keeps_power_down_magnetometer.
Qed.

Lemma ASA_init_through_fuse_rom (w : world) (s : state) :
  exists s', ASA s' = ASA s /\
             ASA (exec (init_through_fuse_rom w) s) = ASA (exec (read_ASA w) s').
Proof.
  unfold init_through_fuse_rom, read_fuse_rom.
  rewrite !exec_bind.
  eexists. split; [ | reflexivity ].
  assert (K : forall d r v, keeps_ASA (IIC_WriteReg w d r v)) by drv.
  assert (U : forall us, keeps_ASA (usleep us)) by drv.
  assert (X : keeps_ASA XIic_Start) by drv.
  now rewrite U, K, U, K, keeps_enable_bypass, keeps_configure_mpu, keeps_wake_mpu, X.
Qed.

Lemma ASA_main (w : world) (n : nat) (s : state) :
  ASA (exec (main w n) s) = ASA (exec (main w 0) s).
Proof.
  unfold main. rewrite !exec_bind. cbn [acquisition_loop].
  now rewrite keeps_acquisition_loop.
Qed.

(** C2, as amended: [ASA] is written by the read of the fuse ROM and
    written again, with whatever the transfer stores, by the confirmation
    read that ends the initialization.  No other step of the initialization
    writes it, and no turn of the acquisition loop changes it. *)
Theorem ASA_written_by_the_two_reads_only (w : world) :
  (forall s,
     init_sequence w s = (init_through_fuse_rom w ;; init_after_fuse_rom w) s) /\
  (forall s,
     ASA (exec (read_ASA w) s) =
     if XIic_Send w (time s) MAG_ADDR [0x10] XIIC_REPEATED_START =? 1
     then store_recv (ASA s) 3 (snd (XIic_Recv w (time s + 1) MAG_ADDR 3 XIIC_STOP))
     else ASA s) /\
  (forall s, exists s', ASA s' = ASA s /\
     ASA (exec (init_through_fuse_rom w) s) = ASA (exec (read_ASA w) s')) /\
  (forall s, exists s', ASA s' = ASA s /\
     ASA (exec (init_after_fuse_rom w) s) = ASA (exec (read_ASA w) s')) /\
  (keeps_ASA XIic_Start /\ keeps_ASA (wake_mpu w) /\ keeps_ASA (configure_mpu w) /\
   keeps_ASA (enable_bypass w) /\ keeps_ASA (power_down_magnetometer w) /\
   keeps_ASA (report_who_am_i w) /\ keeps_ASA (configure_magnetometer w)) /\
  (keeps_ASA (read_mpu9250 w) /\ keeps_ASA (read_magnetometer w)) /\
  (forall n s, ASA (exec (acquisition_loop w n) s) = ASA s) /\
  (forall n, ASA (exec (main w n) initial_state) = ASA (exec (main w 0) initial_state)).
Proof.
  split; [ apply init_sequence_split | ].
  split; [ apply ASA_read_ASA | ].
  split; [ apply ASA_init_through_fuse_rom | ].
  split; [ apply ASA_init_after_fuse_rom | ].
  split.
  { repeat split; auto using keeps_wake_mpu, keeps_configure_mpu, keeps_enable_bypass,
      keeps_power_down_magnetometer, keeps_report_who_am_i,
      keeps_configure_magnetometer. }
  split; [ split; [ apply keeps_read_mpu9250 | apply keeps_read_magnetometer ] | ].
  split; [ intros n s; apply keeps_acquisition_loop | ].
  intros n. apply ASA_main.
Qed.

(** C2, as stated, fails: when the device answers the confirmation read
    with other bytes than the fuse-ROM read, [ASA] changes after the
    fuse-ROM read has completed. *)
Lemma confirmation_read_rewrites_ASA :
  let s0 := exec (call_XIic_Initialize drifting_world) initial_state in
  let s1 := exec (init_through_fuse_rom drifting_world) s0 in
  exec (init_mpu9250 drifting_world) initial_state
    = exec (init_after_fuse_rom drifting_world) s1 /\
  ASA s1 = [16; 16; 16] /\
  ASA (exec (init_mpu9250 drifting_world) initial_state) = [24; 24; 24].
Proof. cbv zeta. split; [ | split ]; vm_compute; reflexivity. Qed.

(** ** Assembly of the 16-bit values *)

Lemma uint8_is_byte (z : Z) : is_byte (uint8 z).
Proof. unfold is_byte, uint8. apply Z.mod_pos_bound. lia. Qed.

Lemma byte_at_is_byte (buf : list Z) (i : nat) :
  Forall is_byte buf -> is_byte (byte_at buf i).
Proof.
  intros H. unfold byte_at.
  destruct (Nat.lt_ge_cases i (List.length buf)) as [Hlt | Hge].
  - rewrite Forall_forall in H. apply H. now apply nth_In.
  - rewrite nth_overflow by assumption. unfold is_byte. lia.
Qed.

Lemma Forall_firstn_skipn {A} (P : A -> Prop) (n : nat) (l : list A) :
  Forall P l -> Forall P (firstn n l) /\ Forall P (skipn n l).
Proof.
  intros H. rewrite <- (firstn_skipn n l) in H. now apply Forall_app in H.
Qed.

Lemma store_recv_bytes (buf : list Z) (len : Z) (got : list Z) :
  Forall is_byte buf -> Forall is_byte (store_recv buf len got).
Proof.
  intros H. unfold store_recv. apply Forall_app. split.
  - apply Forall_firstn_skipn. apply Forall_forall. intros x Hx.
    apply in_map_iff in Hx. destruct Hx as [y [<- _]]. apply uint8_is_byte.
  - now apply Forall_firstn_skipn.
Qed.

Lemma uninitialized_bytes (w : world) (n : nat) (s : state) :
  Forall is_byte (result (uninitialized w n) s).
Proof.
  cbn. apply Forall_forall. intros x Hx.
  apply in_map_iff in Hx. destruct Hx as [y [<- _]]. apply uint8_is_byte.
Qed.

Lemma ReadReg_bytes (w : world) (d r : Z) (buf : list Z) (len : Z) (s : state) :
  Forall is_byte buf -> Forall is_byte (snd (result (IIC_ReadReg w d r buf len) s)).
Proof.
  intros H. unfold result. rewrite run_ReadReg. cbv zeta.
  destruct (_ =? 1); cbn [fst snd]; auto using store_recv_bytes.
Qed.

Lemma burst_read_bytes (w : world) (s : state) :
  Forall is_byte (snd (result (burst_read w) s)).
Proof.
  unfold burst_read. rewrite result_bind.
  apply ReadReg_bytes, uninitialized_bytes.
Qed.

Lemma data_read_bytes (w : world) (s : state) :
  Forall is_byte (snd (result (data_read w) s)).
Proof.
  unfold data_read. rewrite result_bind.
  apply ReadReg_bytes, uninitialized_bytes.
Qed.

Lemma shiftl_lor_bytes (hi lo : Z) :
  is_byte hi -> is_byte lo -> Z.lor (Z.shiftl hi 8) lo = 256 * hi + lo.
Proof.
  unfold is_byte. intros Hhi Hlo.
  rewrite Z.shiftl_mul_pow2 by lia. change (2 ^ 8) with 256.
  pose proof (Z.add_lor_land (hi * 256) lo) as L.
  assert (E : Z.land (hi * 256) lo = 0).
  { apply Z.bits_inj'. intros i Hi. rewrite Z.land_spec, Z.bits_0.
    destruct (Z.ltb_spec i 8).
    - change 256 with (2 ^ 8). rewrite Z.mul_pow2_bits_low by lia. reflexivity.
    - assert (Z.testbit lo i = false) as ->; [ | apply andb_false_r ].
      destruct (Z.eqb_spec lo 0) as [-> | Hnz]; [ apply Z.bits_0 | ].
      apply Z.bits_above_log2; [ lia | ].
      apply Z.log2_lt_pow2; [ lia | ].
      apply Z.lt_le_trans with (2 ^ 8); [ change (2 ^ 8) with 256; lia | ].
      apply Z.pow_le_mono_r; lia. }
  rewrite E in L. lia.
Qed.

Lemma assemble_msb_first (hi lo : Z) :
  is_byte hi -> is_byte lo -> int16 (Z.lor (Z.shiftl hi 8) lo) = msb_first hi lo.
Proof.
  intros Hhi Hlo. rewrite shiftl_lor_bytes by assumption.
  unfold int16, msb_first, is_byte in *. cbv zeta.
  destruct (Z.ltb_spec (256 * hi + lo) 32768).
  - rewrite Z.mod_small; lia.
  - replace (256 * hi + lo + 32768) with (256 * hi + lo - 32768 + 1 * 65536) by lia.
    rewrite Z.mod_add by lia. rewrite Z.mod_small; lia.
Qed.

(** [msb_first hi lo] is in the range of [int16_t]; its bits 0 to 7 are
    those of [lo] and its bits 8 to 15 those of [hi]. *)
Lemma msb_first_bits (hi lo : Z) :
  is_byte hi -> is_byte lo ->
  -32768 <= msb_first hi lo < 32768 /\
  (forall i, 0 <= i < 8 -> Z.testbit (msb_first hi lo) i = Z.testbit lo i) /\
  (forall i, 8 <= i < 16 -> Z.testbit (msb_first hi lo) i = Z.testbit hi (i - 8)).
Proof.
  intros Hhi Hlo.
  assert (M : (msb_first hi lo) mod 65536 = 256 * hi + lo).
  { unfold msb_first, is_byte in *. cbv zeta.
    destruct (Z.ltb_spec (256 * hi + lo) 32768).
    - apply Z.mod_small. lia.
    - replace (256 * hi + lo - 65536) with (256 * hi + lo + (-1) * 65536) by lia.
      rewrite Z.mod_add by lia. apply Z.mod_small. lia. }
  assert (B : forall i, 0 <= i < 16 ->
              Z.testbit (msb_first hi lo) i = Z.testbit (256 * hi + lo) i).
  { intros i Hi. rewrite <- M. change 65536 with (2 ^ 16).
    now rewrite Z.mod_pow2_bits_low by lia. }
  split; [ | split ].
  - unfold msb_first, is_byte in *. cbv zeta.
    destruct (Z.ltb_spec (256 * hi + lo) 32768); lia.
  - intros i Hi. rewrite B by lia.
    rewrite <- shiftl_lor_bytes by assumption.
    rewrite Z.lor_spec, Z.shiftl_spec_low by lia. reflexivity.
  - intros i Hi. rewrite B by lia.
    rewrite <- shiftl_lor_bytes by assumption.
    rewrite Z.lor_spec, Z.shiftl_spec by lia.
    assert (Z.testbit lo i = false) as ->; [ | apply orb_false_r ].
    unfold is_byte in Hlo.
    destruct (Z.eqb_spec lo 0) as [-> | Hnz]; [ apply Z.bits_0 | ].
    apply Z.bits_above_log2; [ lia | ].
    apply Z.log2_lt_pow2; [ lia | ].
    apply Z.lt_le_trans with (2 ^ 8); [ change (2 ^ 8) with 256; lia | ].
    apply Z.pow_le_mono_r; lia.
Qed.

(** C5: after a burst read at register 0x3B that returns 14, the seven
    values converted and printed are, in the order accelerometer X, Y, Z,
    temperature, gyroscope X, Y, Z, the signed 16-bit numbers whose most
    significant byte is at the even offset 0, 2, ..., 12 of the buffer and
    whose least significant byte is at the following odd offset. *)
Theorem burst_values_are_msb_first (w : world) (s : state) :
  let data := snd (result (burst_read w) s) in
  fst (result (burst_read w) s) = 14 ->
  sends (emitted (burst_read w) s) = [(MPU_ADDR, [0x3B], XIIC_REPEATED_START)] /\
  mpu_assemble data =
    {| ax := msb_first (byte_at data 0) (byte_at data 1);
       ay := msb_first (byte_at data 2) (byte_at data 3);
       az := msb_first (byte_at data 4) (byte_at data 5);
       temp := msb_first (byte_at data 6) (byte_at data 7);
       gx := msb_first (byte_at data 8) (byte_at data 9);
       gy := msb_first (byte_at data 10) (byte_at data 11);
       gz := msb_first (byte_at data 12) (byte_at data 13) |} /\
  emitted (read_mpu9250 w) s =
    emitted (burst_read w) s ++
    [PrintMpu (accel_g (msb_first (byte_at data 0) (byte_at data 1)))
              (accel_g (msb_first (byte_at data 2) (byte_at data 3)))
              (accel_g (msb_first (byte_at data 4) (byte_at data 5)))
              (temp_c (msb_first (byte_at data 6) (byte_at data 7)))
              (gyro_dps (msb_first (byte_at data 8) (byte_at data 9)))
              (gyro_dps (msb_first (byte_at data 10) (byte_at data 11)))
              (gyro_dps (msb_first (byte_at data 12) (byte_at data 13)))].
Proof.
  intros data Hn.
  pose proof (burst_read_bytes w s) as Hb. fold data in Hb.
  assert (A : forall i j,
             int16 (Z.lor (Z.shiftl (byte_at data i) 8) (byte_at data j))
             = msb_first (byte_at data i) (byte_at data j))
    by (intros; apply assemble_msb_first; now apply byte_at_is_byte).
  split; [ apply silent_burst_read | ].
  assert (E : mpu_assemble data =
    {| ax := msb_first (byte_at data 0) (byte_at data 1);
       ay := msb_first (byte_at data 2) (byte_at data 3);
       az := msb_first (byte_at data 4) (byte_at data 5);
       temp := msb_first (byte_at data 6) (byte_at data 7);
       gx := msb_first (byte_at data 8) (byte_at data 9);
       gy := msb_first (byte_at data 10) (byte_at data 11);
       gz := msb_first (byte_at data 12) (byte_at data 13) |})
    by (unfold mpu_assemble; now rewrite !A).
  split; [ exact E | ].
  rewrite emitted_read_mpu9250, Hn. fold data. rewrite E. reflexivity.
Qed.

(** Every byte of the burst is 0x81: the seven values are -32383. *)
Lemma burst_values_are_msb_first_witness :
  fst (result (burst_read (nominal_world 0 129)) initial_state) = 14 /\
  mpu_assemble (snd (result (burst_read (nominal_world 0 129)) initial_state)) =
    {| ax := -32383; ay := -32383; az := -32383; temp := -32383;
       gx := -32383; gy := -32383; gz := -32383 |}.
Proof.
  assert (H : fst (result (burst_read (nominal_world 0 129)) initial_state) = 14)
    by reflexivity.
  split; [ exact H | ].
  destruct (burst_values_are_msb_first (nominal_world 0 129) initial_state H)
    as (_ & E & _).
  rewrite E. vm_compute. reflexivity.
Defined.

(** ** Conversion to physical units *)

Lemma forall_from_spec (p : Z -> bool) (n : nat) (lo : Z) :
  forall_from lo n p = true ->
  forall z, lo <= z < lo + Z.of_nat n -> p z = true.
Proof.
  revert lo. induction n as [ | n IH]; intros lo H z Hz.
  - cbn in Hz. lia.
  - cbn [forall_from] in H. apply andb_true_iff in H. destruct H as [H0 H1].
    destruct (Z.eq_dec z lo) as [-> | Hne]; [ exact H0 | ].
    apply (IH (lo + 1) H1). lia.
Qed.

Lemma exactly_spec (x : spec_float) (q : Q) :
  exactly x q = true -> F32.is_finite x = true /\ (F32.to_Q x == q)%Q.
Proof.
  unfold exactly. intros H. apply andb_true_iff in H. destruct H as [H1 H2].
  split; [ exact H1 | now apply Qeq_bool_iff ].
Qed.

Lemma within_spec (eps : Q) (x : spec_float) (q : Q) :
  within eps x q = true ->
  F32.is_finite x = true /\ (Qabs (F32.to_Q x - q) <= eps)%Q.
Proof.
  unfold within. intros H. apply andb_true_iff in H. destruct H as [H1 H2].
  split; [ exact H1 | now apply Qle_bool_iff ].
Qed.

(** *** Sign symmetry

    Every operation rounds the magnitude and keeps the sign apart, so the
    negative raw values follow from the positive ones. *)

Lemma binary_round_aux_opp (s : bool) (m e : Z) (l : location) :
  binary_round_aux F32.prec F32.emax (negb s) m e l
  = SFopp (binary_round_aux F32.prec F32.emax s m e l).
Proof.
  unfold binary_round_aux.
  destruct (shr_fexp F32.prec F32.emax m e l) as [mrs' e'].
  destruct (shr_fexp F32.prec F32.emax _ e' loc_Exact) as [mrs'' e''].
  destruct (shr_m mrs''); [ reflexivity | | reflexivity ].
  destruct (e'' <=? F32.emax - F32.prec); reflexivity.
Qed.

Lemma of_int_opp (z : Z) : z <> 0 -> F32.of_int (- z) = SFopp (F32.of_int z).
Proof.
  intros Hz. destruct z as [ | p | p]; [ congruence | | ];
    unfold F32.of_int, binary_normalize, binary_round; cbn [Z.opp];
    destruct (shl_align _ _ _) as [mz ez].
  - apply (binary_round_aux_opp false).
  - change false with (negb true). rewrite binary_round_aux_opp.
    now destruct (binary_round_aux _ _ true _ _ _).
Qed.

Lemma div_opp_l (x : spec_float) (m : positive) (e : Z) :
  F32.div (SFopp x) (S754_finite false m e)
  = SFopp (F32.div x (S754_finite false m e)).
Proof.
  destruct x as [sx | sx | | sx mx ex]; cbn [SFopp F32.div SFdiv];
    try reflexivity; try (now destruct sx).
  unfold F32.div, SFdiv.
  destruct (SFdiv_core_binary F32.prec F32.emax _ _ _ _) as [[mz ez] lz].
  rewrite !xorb_false_r. apply binary_round_aux_opp.
Qed.

Lemma is_finite_opp (x : spec_float) : F32.is_finite (SFopp x) = F32.is_finite x.
Proof. now destruct x. Qed.

Lemma to_Q_opp (x : spec_float) : (F32.to_Q (SFopp x) == - F32.to_Q x)%Q.
Proof.
  destruct x as [sx | sx | | sx mx ex]; cbn; try reflexivity.
  destruct sx; cbn [negb]; [ now rewrite Qopp_involutive | reflexivity ].
Qed.

(** *** Every raw value *)

Lemma accel_exact_nonneg :
  forall_from 0 (Z.to_nat 32769)
    (fun raw => exactly (accel_g raw) (raw # 4096)) = true.
Proof. vm_cast_no_check (eq_refl true). Qed.

Lemma gyro_within_nonneg :
  forall_from 0 (Z.to_nat 32769)
    (fun raw => within (1 # 8192) (gyro_dps raw) ((raw * 10) # 164)) = true.
Proof. vm_cast_no_check (eq_refl true). Qed.

Lemma temp_within_both_signs :
  forall_from 0 (Z.to_nat 32769)
    (fun r =>
       let d := F32.div (F32.of_int r) lit_340_0f in
       within (1 # 65536) (F32.add d lit_36_53f) ((r # 340) + (3653 # 100)) &&
       within (1 # 65536) (F32.add (SFopp d) lit_36_53f) ((- r # 340) + (3653 # 100)))
  = true.
Proof. vm_cast_no_check (eq_refl true). Qed.

Lemma accel_g_opp (r : Z) : r <> 0 -> accel_g (- r) = SFopp (accel_g r).
Proof.
  intros Hr. unfold accel_g. rewrite of_int_opp by assumption.
  apply div_opp_l.
Qed.

Lemma gyro_dps_opp (r : Z) : r <> 0 -> gyro_dps (- r) = SFopp (gyro_dps r).
Proof.
  intros Hr. unfold gyro_dps. rewrite of_int_opp by assumption.
  apply div_opp_l.
Qed.

Lemma accel_exact (raw : Z) :
  -32768 <= raw <= 32767 ->
  F32.is_finite (accel_g raw) = true /\ (F32.to_Q (accel_g raw) == raw # 4096)%Q.
Proof.
  intros Hraw. destruct (Z.le_gt_cases 0 raw) as [Hpos | Hneg].
  - apply exactly_spec, (forall_from_spec _ _ _ accel_exact_nonneg).
    rewrite Z2Nat.id; lia.
  - destruct (exactly_spec (accel_g (- raw)) ((- raw) # 4096)) as [F E].
    { apply (forall_from_spec _ _ _ accel_exact_nonneg). rewrite Z2Nat.id; lia. }
    assert (R : accel_g raw = SFopp (accel_g (- raw)))
      by (rewrite <- accel_g_opp by lia; f_equal; lia).
    rewrite R, is_finite_opp.
    split; [ exact F | ].
    setoid_rewrite to_Q_opp. setoid_rewrite E.
    unfold Qeq, Qopp. cbn [Qnum Qden]. lia.
Qed.

Lemma gyro_within (raw : Z) :
  -32768 <= raw <= 32767 ->
  F32.is_finite (gyro_dps raw) = true /\
  (Qabs (F32.to_Q (gyro_dps raw) - ((raw * 10) # 164)) <= 1 # 8192)%Q.
Proof.
  intros Hraw. destruct (Z.le_gt_cases 0 raw) as [Hpos | Hneg].
  - apply within_spec, (forall_from_spec _ _ _ gyro_within_nonneg).
    rewrite Z2Nat.id; lia.
  - destruct (within_spec (1 # 8192) (gyro_dps (- raw)) ((- raw * 10) # 164)) as [F E].
    { apply (forall_from_spec _ _ _ gyro_within_nonneg). rewrite Z2Nat.id; lia. }
    assert (R : gyro_dps raw = SFopp (gyro_dps (- raw)))
      by (rewrite <- gyro_dps_opp by lia; f_equal; lia).
    rewrite R, is_finite_opp.
    split; [ exact F | ].
    setoid_rewrite to_Q_opp.
    rewrite <- Qabs_opp.
    assert (Q : (- (- F32.to_Q (gyro_dps (- raw)) - ((raw * 10) # 164))
                 == F32.to_Q (gyro_dps (- raw)) - ((- raw * 10) # 164))%Q).
    { set (x := F32.to_Q (gyro_dps (- raw))).
      assert (O : ((- raw * 10) # 164 == - ((raw * 10) # 164))%Q)
        by (unfold Qeq, Qopp; cbn [Qnum Qden]; lia).
      rewrite O. ring. }
    now rewrite Q.
Qed.

Lemma temp_c_opp (r : Z) :
  r <> 0 ->
  temp_c (- r) = F32.add (SFopp (F32.div (F32.of_int r) lit_340_0f)) lit_36_53f.
Proof.
  intros Hr. unfold temp_c. rewrite of_int_opp by assumption.
  unfold lit_340_0f. now rewrite div_opp_l.
Qed.

Lemma temp_within (raw : Z) :
  -32768 <= raw <= 32767 ->
  F32.is_finite (temp_c raw) = true /\
  (Qabs (F32.to_Q (temp_c raw) - ((raw # 340) + (3653 # 100))) <= 1 # 65536)%Q.
Proof.
  intros Hraw. destruct (Z.le_gt_cases 0 raw) as [Hpos | Hneg].
  - assert (H := forall_from_spec _ _ _ temp_within_both_signs raw).
    cbv zeta in H. rewrite Z2Nat.id in H by lia.
    apply andb_true_iff in H; [ | lia ].
    apply within_spec, H.
  - assert (H := forall_from_spec _ _ _ temp_within_both_signs (- raw)).
    cbv zeta in H. rewrite Z2Nat.id in H by lia.
    apply andb_true_iff in H; [ | lia ].
    rewrite <- temp_c_opp in H by lia.
    replace (- - raw) with raw in H by lia.
    apply within_spec, H.
Qed.

Lemma int16_bounds (z : Z) : -32768 <= int16 z <= 32767.
Proof.
  unfold int16. pose proof (Z.mod_pos_bound (z + 32768) 65536). lia.
Qed.

Lemma adj_exact_all :
  forall_from 0 256
    (fun asa => exactly (adj asa) (((asa - 128) # 256) + 1)) = true.
Proof. vm_cast_no_check (eq_refl true). Qed.

Lemma uint8_range (z : Z) : 0 <= uint8 z < 0 + Z.of_nat 256.
Proof. pose proof (uint8_is_byte z) as H. unfold is_byte in H. lia. Qed.

(** * Further properties of the driver *)

(** ** Counting the events of a run *)

Lemma count_app (p : event -> bool) (l1 l2 : list event) :
  count p (l1 ++ l2) = (count p l1 + count p l2)%nat.
Proof. unfold count. now rewrite filter_app, length_app. Qed.

Lemma count_cons (p : event -> bool) (e : event) (l : list event) :
  count p (e :: l) = ((if p e then 1 else 0) + count p l)%nat.
Proof. unfold count. cbn [filter]. now destruct (p e). Qed.

Lemma slept_app (l1 l2 : list event) : slept (l1 ++ l2) = slept l1 + slept l2.
Proof.
  induction l1 as [ | e l1 IH]; [ reflexivity | ].
  destruct e; cbn [app slept]; rewrite IH; lia.
Qed.

Lemma cycle_counts (w : world) (s : state) :
  let l := emitted (acquisition_cycle w) s in
  count is_cadence_sleep l = 1%nat /\
  count is_usleep l = 1%nat /\
  count (is_request MPU_ADDR 0x3B) l = 1%nat /\
  count (is_request MAG_ADDR 0x02) l = 1%nat /\
  (count (is_request MAG_ADDR 0x03) l <= 1)%nat /\
  (count is_print l + count is_print_mpu l + count is_print_mag l <= 2)%nat.
Proof.
  cbv zeta. rewrite emitted_acquisition_cycle, emitted_read_mpu9250.
  set (s1 := exec (read_mpu9250 w) s).
  pose proof (emitted_read_magnetometer w s1) as E. cbv zeta in E. rewrite E. clear E.
  rewrite emitted_burst_read, emitted_status_read, emitted_data_read, !emitted_ReadReg.
  cbv zeta.
  repeat match goal with
         | |- context [if ?b then _ else _] => destruct b
         end;
    repeat split; vm_compute; lia.
Qed.

Lemma emitted_loop_succ (w : world) (n : nat) (s : state) :
  emitted (acquisition_loop w (S n)) s =
  emitted (acquisition_cycle w) s ++
  emitted (acquisition_loop w n) (exec (acquisition_cycle w) s).
Proof.
  cbn [acquisition_loop].
  rewrite emitted_bind;
    [ reflexivity | apply appends_acquisition_cycle
    | intro; apply appends_acquisition_loop ].
Qed.

Lemma loop_counts (w : world) (n : nat) (s : state) :
  let l := emitted (acquisition_loop w n) s in
  count is_cadence_sleep l = n /\
  count is_usleep l = n /\
  slept l = 1000000 * Z.of_nat n /\
  count (is_request MPU_ADDR 0x3B) l = n /\
  count (is_request MAG_ADDR 0x02) l = n /\
  (count (is_request MAG_ADDR 0x03) l <= n)%nat /\
  (count is_print l + count is_print_mpu l + count is_print_mag l <= 2 * n)%nat.
Proof.
  cbv zeta. revert s. induction n as [ | n IH]; intros s.
  - cbn [acquisition_loop]. rewrite emitted_ret. repeat split; cbn; lia.
  - rewrite emitted_loop_succ, !count_app, slept_app.
    destruct (cycle_counts w s) as (C1 & C2 & C3 & C4 & C5 & C6).
    destruct (IH (exec (acquisition_cycle w) s)) as (I1 & I2 & I3 & I4 & I5 & I6 & I7).
    assert (S1 : slept (emitted (acquisition_cycle w) s) = 1000000).
    { rewrite emitted_acquisition_cycle, emitted_read_mpu9250.
      set (s1 := exec (read_mpu9250 w) s).
      pose proof (emitted_read_magnetometer w s1) as E. cbv zeta in E.
      rewrite E. clear E.
      rewrite emitted_burst_read, emitted_status_read, emitted_data_read,
        !emitted_ReadReg.
      cbv zeta.
      repeat match goal with
             | |- context [if ?b then _ else _] => destruct b
             end; reflexivity. }
    rewrite C1, C2, C3, C4, I1, I2, I3, I4, I5, S1.
    repeat split; lia.
Qed.

(** X1: whatever the bus answers, each of the first [n] turns of the loop
    asks the sensor once, asks the magnetometer status once, asks the
    magnetometer data at most once, prints at most two lines and pauses once,
    for one second. *)
Theorem loop_turn_counts (w : world) (n : nat) (s : state) :
  let l := emitted (acquisition_loop w n) s in
  count is_cadence_sleep l = n /\
  count is_usleep l = n /\
  slept l = 1000000 * Z.of_nat n /\
  count (is_request MPU_ADDR 0x3B) l = n /\
  count (is_request MAG_ADDR 0x02) l = n /\
  (count (is_request MAG_ADDR 0x03) l <= n)%nat /\
  (count is_print l + count is_print_mpu l + count is_print_mag l <= 2 * n)%nat.
Proof. exact (loop_counts w n s). Qed.

(** ** The events of the initialization *)

Ltac split_events :=
  repeat first
    [ rewrite emitted_bind by drv
    | progress cbv beta
    | match goal with
      | |- context [match ?p with pair _ _ => _ end] => destruct p
      end ].

Ltac forget_states :=
  repeat match goal with
         | |- context [emitted _ (exec ?m ?s)] => generalize (exec m s); intro
         end.

Ltac unfold_init :=
  cbv delta [init_sequence wake_mpu configure_mpu enable_bypass read_fuse_rom
             power_down_magnetometer report_who_am_i configure_magnetometer
             confirm_ASA read_ASA usleep XIic_Start print].

Lemma emitted_init_mpu9250 (w : world) (s : state) :
  emitted (init_mpu9250 w) s =
  IicInitialize (XIic_Initialize w) ::
  (if XIic_Initialize w =? XST_SUCCESS
   then emitted (init_sequence w) (logged s [IicInitialize (XIic_Initialize w)])
   else [Print ("Error inicializando IIC" ++ CRLF)]).
Proof.
  unfold init_mpu9250.
  rewrite emitted_bind;
    [ | drv | intro; apply appends_if; [ drv | apply appends_init_sequence ] ].
  unfold call_XIic_Initialize at 1. cbv zeta.
  rewrite emitted_bind by drv. rewrite emitted_emit, emitted_ret.
  cbn [app].
  change (exec (call_XIic_Initialize w) s)
    with (logged s [IicInitialize (XIic_Initialize w)]).
  change (result (call_XIic_Initialize w) s) with (XIic_Initialize w).
  destruct (XIic_Initialize w =? XST_SUCCESS); cbn [negb]; [ reflexivity | ].
  unfold print. now rewrite emitted_emit.
Qed.

Lemma init_sequence_events (w : world) (s : state) :
  let l := emitted (init_sequence w) s in
  filter is_usleep l = repeat (Usleep 1000) 5 /\
  slept l = 5000 /\
  count is_cadence_sleep l = 0%nat /\
  (count is_recv l <= 3)%nat /\
  List.length l = (22 + count is_recv l)%nat.
Proof.
  cbv zeta.
  assert (L : forall l, List.length l
               = (count (fun e => negb (is_recv e)) l + count is_recv l)%nat).
  { induction l as [ | e l IH]; [ reflexivity | ].
    unfold count in *. cbn [filter List.length].
    destruct (is_recv e); cbn [negb List.length]; lia. }
  rewrite (L (emitted (init_sequence w) s)). clear L.
  unfold_init. split_events. forget_states.
  rewrite !filter_app, !slept_app, !count_app.
  rewrite ?emitted_WriteReg, ?emitted_ReadReg, ?emitted_emit, ?emitted_get_ASA,
    ?emitted_set_ASA, ?emitted_ret.
  cbv zeta.
  repeat match goal with
         | |- context [if ?b then _ else _] => destruct b
         end;
    repeat split; vm_compute; try reflexivity; lia.
Qed.

Lemma init_mpu9250_counts (w : world) (s : state) :
  let ok := XIic_Initialize w =? XST_SUCCESS in
  let l := emitted (init_mpu9250 w) s in
  filter is_usleep l = (if ok then repeat (Usleep 1000) 5 else []) /\
  slept l = (if ok then 5000 else 0) /\
  count is_cadence_sleep l = 0%nat /\
  (count is_recv l <= 3)%nat /\
  List.length l = (if ok then 23 + count is_recv l else 2)%nat.
Proof.
  cbv zeta. rewrite emitted_init_mpu9250.
  destruct (XIic_Initialize w =? XST_SUCCESS).
  - destruct (init_sequence_events w (logged s [IicInitialize (XIic_Initialize w)]))
      as (E1 & E2 & E3 & E4 & E5).
    cbn [filter is_usleep slept List.length].
    rewrite !count_cons, E1, E2, E3, E5.
    cbn [is_cadence_sleep is_recv].
    repeat split; try reflexivity; lia.
  - repeat split; cbn; lia.
Qed.

(** X2: the initialization pauses five times for 1000 microseconds when
    the bus initialization succeeds and not at all when it fails; it never
    makes the one-second pause of the loop, receives at most three times, and
    logs 23 events besides the receives on success and 2 on failure. *)
Theorem init_mpu9250_events (w : world) (s : state) :
  let ok := XIic_Initialize w =? XST_SUCCESS in
  let l := emitted (init_mpu9250 w) s in
  filter is_usleep l = (if ok then repeat (Usleep 1000) 5 else []) /\
  slept l = (if ok then 5000 else 0) /\
  count is_cadence_sleep l = 0%nat /\
  (count is_recv l <= 3)%nat /\
  List.length l = (if ok then 23 + count is_recv l else 2)%nat.
Proof. exact (init_mpu9250_counts w s). Qed.

Lemma main_log (w : world) (n : nat) :
  let banner := [InitPlatform; Print ("Iniciando MPU9250..." ++ LFCR)] in
  let s2 := logged initial_state banner in
  log (exec (main w n) initial_state) =
  banner ++ emitted (init_mpu9250 w) s2 ++
  emitted (acquisition_loop w n) (exec (init_mpu9250 w) s2).
Proof.
  cbv zeta. unfold main. rewrite !exec_bind.
  change (exec (print ("Iniciando MPU9250..." ++ LFCR))
            (exec init_platform initial_state))
    with (logged initial_state
            [InitPlatform; Print ("Iniciando MPU9250..." ++ LFCR)]).
  rewrite (appends_emitted _ _ (appends_acquisition_loop w n)).
  rewrite (appends_emitted _ _ (appends_init_mpu9250 w)).
  now rewrite <- app_assoc.
Qed.

(** X3: for every environment and every number of turns, the log of [main]
    is the platform initialization and the banner, then the events of
    [init_mpu9250], then those of the loop; the bus initialization is the
    first call made to the bus driver, and the log holds exactly [n]
    one-second pauses. *)
Theorem main_log_shape (w : world) (n : nat) :
  let banner := [InitPlatform; Print ("Iniciando MPU9250..." ++ LFCR)] in
  let s2 := logged initial_state banner in
  let s3 := exec (init_mpu9250 w) s2 in
  let l := log (exec (main w n) initial_state) in
  l = banner ++ emitted (init_mpu9250 w) s2 ++ emitted (acquisition_loop w n) s3 /\
  nth 2 l InitPlatform = IicInitialize (XIic_Initialize w) /\
  count is_cadence_sleep l = n.
Proof.
  cbv zeta. pose proof (main_log w n) as E. cbv zeta in E. rewrite E.
  split; [ reflexivity | ]. split.
  - rewrite emitted_init_mpu9250. reflexivity.
  - rewrite !count_app.
    destruct (init_mpu9250_counts w
                (logged initial_state
                   [InitPlatform; Print ("Iniciando MPU9250..." ++ LFCR)]))
      as (_ & _ & C & _).
    destruct (loop_counts w n
                (exec (init_mpu9250 w)
                   (logged initial_state
                      [InitPlatform; Print ("Iniciando MPU9250..." ++ LFCR)])))
      as (L & _).
    rewrite C, L. reflexivity.
Qed.

(** ** The adjustment bytes during a run *)

Lemma store_recv_length (buf : list Z) (len : Z) (got : list Z) :
  (Z.to_nat len <= List.length buf)%nat ->
  List.length (store_recv buf len got) = List.length buf.
Proof.
  intros H. unfold store_recv. cbv zeta.
  rewrite length_app, length_skipn.
  pose proof (firstn_le_length (Z.to_nat len) (map uint8 got)). lia.
Qed.

Lemma ASA_ok_eq (s s' : state) : ASA s' = ASA s -> ASA_ok s -> ASA_ok s'.
Proof. unfold ASA_ok. now intros ->. Qed.

Lemma ASA_ok_read_ASA (w : world) (s : state) :
  ASA_ok s -> ASA_ok (exec (read_ASA w) s).
Proof.
  intros [HL HB]. unfold ASA_ok. rewrite ASA_read_ASA.
  destruct (_ =? 1); [ | now split ].
  split; [ | now apply store_recv_bytes ].
  rewrite store_recv_length; [ exact HL | rewrite HL; cbn; lia ].
Qed.

Lemma exec_init_sequence (w : world) (s : state) :
  exec (init_sequence w) s
  = exec (init_after_fuse_rom w) (exec (init_through_fuse_rom w) s).
Proof. unfold exec at 1. rewrite init_sequence_split. now rewrite run_bind. Qed.

Lemma ASA_ok_init_sequence (w : world) (s : state) :
  ASA_ok s -> ASA_ok (exec (init_sequence w) s).
Proof.
  intros H. rewrite exec_init_sequence.
  destruct (ASA_init_through_fuse_rom w s) as (s1 & E1 & R1).
  destruct (ASA_init_after_fuse_rom w (exec (init_through_fuse_rom w) s))
    as (s2 & E2 & R2).
  apply (ASA_ok_eq (exec (read_ASA w) s2)); [ exact R2 | ].
  apply ASA_ok_read_ASA, (ASA_ok_eq _ _ E2).
  apply (ASA_ok_eq (exec (read_ASA w) s1)); [ exact R1 | ].
  apply ASA_ok_read_ASA, (ASA_ok_eq _ _ E1), H.
Qed.

Lemma exec_init_mpu9250 (w : world) (s : state) :
  exec (init_mpu9250 w) s =
  if XIic_Initialize w =? XST_SUCCESS
  then exec (init_sequence w) (logged s [IicInitialize (XIic_Initialize w)])
  else logged s [IicInitialize (XIic_Initialize w);
                 Print ("Error inicializando IIC" ++ CRLF)].
Proof.
  unfold exec, init_mpu9250, call_XIic_Initialize. run.
  destruct (XIic_Initialize w =? XST_SUCCESS); cbn [negb]; [ reflexivity | ].
  run. reflexivity.
Qed.

Lemma ASA_ok_init_mpu9250 (w : world) (s : state) :
  ASA_ok s -> ASA_ok (exec (init_mpu9250 w) s).
Proof.
  intros H. rewrite exec_init_mpu9250.
  destruct (XIic_Initialize w =? XST_SUCCESS); [ | exact H ].
  apply ASA_ok_init_sequence. exact H.
Qed.

Lemma ASA_ok_main (w : world) (n : nat) : ASA_ok (exec (main w n) initial_state).
Proof.
  apply (ASA_ok_eq (exec (main w 0) initial_state)); [ apply ASA_main | ].
  unfold main. rewrite !exec_bind. cbn [acquisition_loop].
  apply (ASA_ok_eq (exec (init_mpu9250 w)
                      (exec (print ("Iniciando MPU9250..." ++ LFCR))
                         (exec init_platform initial_state))));
    [ reflexivity | ].
  apply ASA_ok_init_mpu9250. split; [ reflexivity | ].
  repeat constructor; unfold is_byte; lia.
Qed.

(** X4: at every point where [main] can be observed, after the
    initialization and after any number of turns of the loop, the global
    array still holds exactly three values, each between 0 and 255, whatever
    the transfers returned or stored. *)
Theorem ASA_always_three_bytes (w : world) (n : nat) :
  List.length (ASA (exec (main w n) initial_state)) = 3%nat /\
  Forall is_byte (ASA (exec (main w n) initial_state)).
Proof. exact (ASA_ok_main w n). Qed.

Lemma adj_byte (a : Z) :
  is_byte a ->
  F32.is_finite (adj a) = true /\ (F32.to_Q (adj a) == ((a - 128) # 256) + 1)%Q.
Proof.
  intros Ha. apply exactly_spec.
  apply (forall_from_spec _ _ _ adj_exact_all). unfold is_byte in Ha. cbn. lia.
Qed.

(** X5: in every run, whatever the device stored in the adjustment bytes,
    the factor applied to each magnetometer axis is a finite number between
    1/2 and 383/256: it is never zero, negative or infinite. *)
Theorem adjustment_factor_bounds (w : world) (n : nat) (axis : nat) :
  let asa := byte_at (ASA (exec (main w n) initial_state)) axis in
  F32.is_finite (adj asa) = true /\
  (1 # 2 <= F32.to_Q (adj asa))%Q /\
  (F32.to_Q (adj asa) <= 383 # 256)%Q.
Proof.
  cbv zeta.
  set (asa := byte_at (ASA (exec (main w n) initial_state)) axis).
  assert (Ha : is_byte asa) by (apply byte_at_is_byte, ASA_ok_main).
  destruct (adj_byte asa Ha) as [F E].
  split; [ exact F | ].
  rewrite E. unfold is_byte in Ha.
  split; unfold Qle, Qplus; cbn [Qnum Qden]; lia.
Qed.

Lemma ASA_main_failed (w : world) (n : nat) :
  XIic_Initialize w <> XST_SUCCESS ->
  ASA (exec (main w n) initial_state) = [0; 0; 0].
Proof.
  intros H. rewrite ASA_main. unfold main. rewrite !exec_bind.
  cbn [acquisition_loop]. rewrite exec_init_mpu9250.
  apply Z.eqb_neq in H. rewrite H. reflexivity.
Qed.

(** X6: when the bus initialization fails the adjustment bytes are never
    read: they keep their initial value 0 in every later turn, and the factor
    applied to each magnetometer axis is then exactly 1/2. *)
Theorem failed_initialization_leaves_ASA_zero (w : world) (n : nat) (axis : nat) :
  XIic_Initialize w <> XST_SUCCESS ->
  ASA (exec (main w n) initial_state) = [0; 0; 0] /\
  (F32.to_Q (adj (byte_at (ASA (exec (main w n) initial_state)) axis)) == 1 # 2)%Q.
Proof.
  intros H. rewrite (ASA_main_failed w n H). split; [ reflexivity | ].
  assert (E : byte_at [0; 0; 0] axis = 0)
    by (do 3 (destruct axis as [ | axis]; [ reflexivity | ]); now destruct axis).
  rewrite E. vm_compute. reflexivity.
Qed.

(** The bus initialization returns 1, turn 2, axis Y. *)
Lemma failed_initialization_leaves_ASA_zero_witness :
  XIic_Initialize (nominal_world 1 0) <> XST_SUCCESS /\
  ASA (exec (main (nominal_world 1 0) 2) initial_state) = [0; 0; 0] /\
  (F32.to_Q (adj (byte_at (ASA (exec (main (nominal_world 1 0) 2) initial_state)) 1))
   == 1 # 2)%Q.
Proof.
  assert (H : XIic_Initialize (nominal_world 1 0) <> XST_SUCCESS)
    by (vm_compute; discriminate).
  split; [ exact H | ].
  exact (failed_initialization_leaves_ASA_zero (nominal_world 1 0) 2 1 H).
Defined.

(** ** A bus without devices *)

Lemma emitted_uninitialized_nil (w : world) (n : nat) (s : state) :
  emitted (uninitialized w n) s = [].
Proof. apply emitted_run. cbn. now rewrite app_nil_r. Qed.

Lemma reports_silent (msg : string) (l : list event) :
  filter is_print l = [] -> count (reports msg) l = 0%nat.
Proof.
  induction l as [ | e l IH]; [ reflexivity | ].
  rewrite count_cons. destruct e; cbn [filter is_print reports]; auto.
  discriminate.
Qed.

Section Absent.

Variable w : world.
Hypothesis no_transfer : forall t d p o, XIic_Send w t d p o = 0.

Lemma emitted_ReadReg_absent (d r : Z) (buf : list Z) (len : Z) (s : state) :
  emitted (IIC_ReadReg w d r buf len) s = [IicSend d [r] XIIC_REPEATED_START 0] /\
  result (IIC_ReadReg w d r buf len) s = (0, buf) /\
  ASA (exec (IIC_ReadReg w d r buf len) s) = ASA s.
Proof.
  rewrite emitted_ReadReg. unfold result, exec. rewrite run_ReadReg.
  cbv zeta. rewrite no_transfer. cbn. auto.
Qed.

Lemma cycle_absent (s : state) :
  let l := emitted (acquisition_cycle w) s in
  count is_recv l = 0%nat /\ count is_print_mpu l = 0%nat /\
  count is_print_mag l = 0%nat /\ (1 <= count is_print l)%nat.
Proof.
  cbv zeta. rewrite emitted_acquisition_cycle, emitted_read_mpu9250.
  set (s1 := exec (read_mpu9250 w) s).
  pose proof (emitted_read_magnetometer w s1) as E. cbv zeta in E. rewrite E. clear E.
  unfold burst_read, status_read, data_read.
  rewrite !result_bind, !emitted_bind by drv.
  repeat match goal with
         | |- context [emitted (IIC_ReadReg w ?d ?r ?b ?n) ?st] =>
             destruct (emitted_ReadReg_absent d r b n st) as (-> & -> & _)
         end.
  rewrite !emitted_uninitialized_nil.
  cbn [fst snd app].
  change (0 =? 14) with false. change (negb (0 =? 7)) with true. cbv iota.
  repeat match goal with
         | |- context [if ?b then _ else _] => destruct b
         end;
    repeat split; vm_compute; lia.
Qed.

Lemma loop_absent (n : nat) (s : state) :
  let l := emitted (acquisition_loop w n) s in
  count is_recv l = 0%nat /\ count is_print_mpu l = 0%nat /\
  count is_print_mag l = 0%nat /\ (n <= count is_print l)%nat.
Proof.
  cbv zeta. revert s. induction n as [ | n IH]; intros s.
  - cbn [acquisition_loop]. rewrite emitted_ret. repeat split; cbn; lia.
  - rewrite emitted_loop_succ, !count_app.
    destruct (cycle_absent s) as (C1 & C2 & C3 & C4).
    destruct (IH (exec (acquisition_cycle w) s)) as (I1 & I2 & I3 & I4).
    rewrite C1, C2, C3, I1, I2, I3. repeat split; lia.
Qed.

Lemma ASA_read_ASA_absent (s : state) : ASA (exec (read_ASA w) s) = ASA s.
Proof. rewrite ASA_read_ASA, no_transfer. reflexivity. Qed.

Lemma init_absent (s : state) :
  let l := emitted (init_mpu9250 w) s in
  count is_recv l = 0%nat /\ count is_print_mpu l = 0%nat /\
  count is_print_mag l = 0%nat /\
  ASA (exec (init_mpu9250 w) s) = ASA s.
Proof.
  cbv zeta. rewrite emitted_init_mpu9250, exec_init_mpu9250.
  destruct (XIic_Initialize w =? XST_SUCCESS); [ | repeat split ].
  set (s0 := logged s [IicInitialize (XIic_Initialize w)]).
  assert (A : ASA (exec (init_sequence w) s0) = ASA s).
  { rewrite exec_init_sequence.
    destruct (ASA_init_through_fuse_rom w s0) as (s1 & E1 & R1).
    destruct (ASA_init_after_fuse_rom w (exec (init_through_fuse_rom w) s0))
      as (s2 & E2 & R2).
    now rewrite R2, ASA_read_ASA_absent, E2, R1, ASA_read_ASA_absent, E1. }
  rewrite !count_cons. cbn [is_recv is_print_mpu is_print_mag].
  rewrite A. clear A. subst s0.
  generalize (logged s [IicInitialize (XIic_Initialize w)]). intro s0.
  unfold_init. split_events. forget_states.
  rewrite !count_app.
  rewrite ?emitted_WriteReg, ?emitted_ReadReg, ?emitted_emit, ?emitted_get_ASA,
    ?emitted_set_ASA, ?emitted_ret.
  cbv zeta. rewrite ?no_transfer.
  split; [ | split; [ | split ] ]; reflexivity.
Qed.

Lemma turn_absent (s : state) :
  let st1 := byte_at (snd (result (status_read w) (exec (read_mpu9250 w) s))) 0 in
  emitted (acquisition_cycle w) s =
    [IicSend MPU_ADDR [0x3B] XIIC_REPEATED_START 0;
     Print ("Error leyendo datos del MPU" ++ CRLF);
     IicSend MAG_ADDR [0x02] XIIC_REPEATED_START 0] ++
    (if Z.testbit st1 0
     then [IicSend MAG_ADDR [0x03] XIIC_REPEATED_START 0;
           Print ("Error leyendo datos del magnetometro" ++ CRLF)]
     else []) ++
    [Usleep 1000000].
Proof.
  cbv zeta. rewrite emitted_acquisition_cycle.
  pose proof (events_read_mpu9250 w s) as E. cbv zeta in E. rewrite E. clear E.
  set (s1 := exec (read_mpu9250 w) s).
  pose proof (events_read_magnetometer w s1) as E. cbv zeta in E. rewrite E. clear E.
  rewrite result_burst_read, result_data_read. cbv zeta.
  rewrite !no_transfer.
  change (0 =? 1) with false. change (0 =? 14) with false.
  change (0 =? 7) with false. cbv iota.
  cbn [app].
  now destruct (Z.testbit _ 0).
Qed.

Lemma loop_sensor_errors (n : nat) (s : state) :
  count (reports ("Error leyendo datos del MPU" ++ CRLF))
        (emitted (acquisition_loop w n) s) = n.
Proof.
  revert s. induction n as [ | n IH]; intros s.
  - cbn [acquisition_loop]. now rewrite emitted_ret.
  - rewrite emitted_loop_succ, count_app, IH.
    pose proof (turn_absent s) as T. cbv zeta in T. rewrite T.
    now destruct (Z.testbit _ 0).
Qed.

Lemma init_sensor_errors (s : state) :
  count (reports ("Error leyendo datos del MPU" ++ CRLF))
        (emitted (init_mpu9250 w) s) = 0%nat.
Proof.
  rewrite emitted_init_mpu9250, count_cons. cbn [reports Nat.add].
  destruct (XIic_Initialize w =? XST_SUCCESS); [ | reflexivity ].
  apply reports_silent, silent_init_sequence.
Qed.

(** X7: on a bus where no send transfers a byte, a run of any length never
    receives, never prints a sensor or magnetometer line and leaves the
    adjustment bytes at 0.  Every turn, in whatever state it starts, consists
    of the failed request to the sensor, the message that reports it, the
    failed request for the magnetometer status and, only if bit 0 of the
    indeterminate status byte is set, the failed request for the data and its
    message, then the pause: the sensor message is printed exactly once per
    turn, and the log of [n] turns holds it [n] times besides the banner. *)
Theorem run_without_devices (n : nat) (s : state) :
  let l := log (exec (main w n) initial_state) in
  let st1 := byte_at (snd (result (status_read w) (exec (read_mpu9250 w) s))) 0 in
  count is_recv l = 0%nat /\
  count is_print_mpu l = 0%nat /\
  count is_print_mag l = 0%nat /\
  (1 + n <= count is_print l)%nat /\
  ASA (exec (main w n) initial_state) = [0; 0; 0] /\
  emitted (acquisition_cycle w) s =
    [IicSend MPU_ADDR [0x3B] XIIC_REPEATED_START 0;
     Print ("Error leyendo datos del MPU" ++ CRLF);
     IicSend MAG_ADDR [0x02] XIIC_REPEATED_START 0] ++
    (if Z.testbit st1 0
     then [IicSend MAG_ADDR [0x03] XIIC_REPEATED_START 0;
           Print ("Error leyendo datos del magnetometro" ++ CRLF)]
     else []) ++
    [Usleep 1000000] /\
  count (reports ("Error leyendo datos del MPU" ++ CRLF)) l = n.
Proof.
  cbv zeta. pose proof (main_log w n) as E. cbv zeta in E. rewrite E.
  set (s2 := logged initial_state
               [InitPlatform; Print ("Iniciando MPU9250..." ++ LFCR)]).
  destruct (init_absent s2) as (I1 & I2 & I3 & I4).
  destruct (loop_absent n (exec (init_mpu9250 w) s2))
    as (L1 & L2 & L3 & L4).
  rewrite !count_app, I1, I2, I3, L1, L2, L3, init_sensor_errors,
    loop_sensor_errors.
  split; [ reflexivity | ]. split; [ reflexivity | ]. split; [ reflexivity | ].
  split.
  { change (count is_print [InitPlatform; Print ("Iniciando MPU9250..." ++ LFCR)])
      with 1%nat. lia. }
  split.
  { rewrite ASA_main. unfold main. rewrite !exec_bind. cbn [acquisition_loop].
    change (exec (ret tt) ?s) with s.
    exact I4. }
  split; [ apply turn_absent | reflexivity ].
Qed.

End Absent.

(** Three turns on the bus without devices, a turn taken from the start. *)
Lemma run_without_devices_witness :
  (forall t d p o, XIic_Send absent_device_world t d p o = 0) /\
  count is_recv (log (exec (main absent_device_world 3) initial_state)) = 0%nat /\
  count is_print_mpu (log (exec (main absent_device_world 3) initial_state)) = 0%nat /\
  count is_print_mag (log (exec (main absent_device_world 3) initial_state)) = 0%nat /\
  (1 + 3 <= count is_print (log (exec (main absent_device_world 3) initial_state)))%nat /\
  ASA (exec (main absent_device_world 3) initial_state) = [0; 0; 0] /\
  emitted (acquisition_cycle absent_device_world) initial_state =
    [IicSend MPU_ADDR [0x3B] XIIC_REPEATED_START 0;
     Print ("Error leyendo datos del MPU" ++ CRLF);
     IicSend MAG_ADDR [0x02] XIIC_REPEATED_START 0] ++
    (if Z.testbit
          (byte_at (snd (result (status_read absent_device_world)
                           (exec (read_mpu9250 absent_device_world) initial_state))) 0)
          0
     then [IicSend MAG_ADDR [0x03] XIIC_REPEATED_START 0;
           Print ("Error leyendo datos del magnetometro" ++ CRLF)]
     else []) ++
    [Usleep 1000000] /\
  count (reports ("Error leyendo datos del MPU" ++ CRLF))
        (log (exec (main absent_device_world 3) initial_state)) = 3%nat.
Proof.
  assert (H : forall t d p o, XIic_Send absent_device_world t d p o = 0)
    by reflexivity.
  split; [ exact H | ].
  exact (run_without_devices absent_device_world H 3 initial_state).
Defined.


(** ** What the initialization reports *)

Lemma appends_confirm (w : world) : appends (confirm_ASA w).
Proof. unfold confirm_ASA, read_ASA. drv. Qed.

Lemma emitted_confirm_ASA (w : world) (s : state) :
  let a := ASA (exec (confirm_ASA w) s) in
  emitted (confirm_ASA w) s =
  emitted (read_ASA w) s ++ [PrintASA (byte_at a 0) (byte_at a 1) (byte_at a 2)].
Proof.
  cbv zeta. unfold confirm_ASA.
  rewrite emitted_bind by (try apply appends_read_ASA; drv).
  rewrite emitted_bind by drv.
  rewrite emitted_get_ASA, emitted_emit. rewrite !exec_bind. reflexivity.
Qed.

Lemma emitted_init_sequence_last (w : world) (s : state) :
  let a := ASA (exec (init_sequence w) s) in
  exists l, emitted (init_sequence w) s =
            l ++ [PrintASA (byte_at a 0) (byte_at a 1) (byte_at a 2)].
Proof.
  cbv zeta. unfold init_sequence.
  assert (T : forall (m : M unit),
             appends m ->
             forall s0,
             exists l, emitted (m ;; confirm_ASA w) s0 =
               l ++ [PrintASA (byte_at (ASA (exec (m ;; confirm_ASA w) s0)) 0)
                              (byte_at (ASA (exec (m ;; confirm_ASA w) s0)) 1)
                              (byte_at (ASA (exec (m ;; confirm_ASA w) s0)) 2)]).
  { intros m Hm s0.
    rewrite emitted_bind; [ | exact Hm | intro; apply appends_confirm ].
    rewrite exec_bind.
    pose proof (emitted_confirm_ASA w (exec m s0)) as E. cbv zeta in E.
    rewrite E. eexists. now rewrite app_assoc. }
  set (before := XIic_Start ;; wake_mpu w ;; configure_mpu w ;; enable_bypass w ;;
                 read_fuse_rom w ;; power_down_magnetometer w ;;
                 report_who_am_i w ;; configure_magnetometer w).
  assert (B : appends before).
  { unfold before.
    repeat (apply appends_bind; [ | intro ]);
      try apply appends_WriteReg; try apply appends_read_ASA;
      try apply appends_ReadReg; drv. }
  destruct (T before B s) as [l Hl].
  exists l.
  assert (E : forall s0, (before ;; confirm_ASA w) s0 =
              (XIic_Start ;; wake_mpu w ;; configure_mpu w ;; enable_bypass w ;;
               read_fuse_rom w ;; power_down_magnetometer w ;;
               report_who_am_i w ;; configure_magnetometer w ;; confirm_ASA w) s0).
  { intros s0. unfold before. now rewrite !run_bind. }
  unfold emitted, exec in *. rewrite <- E. exact Hl.
Qed.

(** X8: when the bus initialization succeeds, the last thing the
    initialization does is print the adjustment bytes, and the three values
    printed are the ones left in the global array when it returns. *)
Theorem confirmation_prints_the_stored_ASA (w : world) (s : state) :
  XIic_Initialize w = XST_SUCCESS ->
  let a := ASA (exec (init_mpu9250 w) s) in
  exists l, emitted (init_mpu9250 w) s =
            l ++ [PrintASA (byte_at a 0) (byte_at a 1) (byte_at a 2)].
Proof.
  intros H. cbv zeta. rewrite emitted_init_mpu9250, exec_init_mpu9250.
  apply Z.eqb_eq in H. rewrite H.
  destruct (emitted_init_sequence_last w
              (logged s [IicInitialize (XIic_Initialize w)])) as [l Hl].
  exists (IicInitialize (XIic_Initialize w) :: l). now rewrite Hl.
Qed.

(** Every byte read is 7: the initialization ends by printing 7 7 7. *)
Lemma confirmation_prints_the_stored_ASA_witness :
  XIic_Initialize (nominal_world 0 7) = XST_SUCCESS /\
  exists l, emitted (init_mpu9250 (nominal_world 0 7)) initial_state =
            l ++ [PrintASA 7 7 7].
Proof.
  assert (H : XIic_Initialize (nominal_world 0 7) = XST_SUCCESS) by reflexivity.
  split; [ exact H | ].
  exact (confirmation_prints_the_stored_ASA (nominal_world 0 7) initial_state H).
Defined.

(** X9: the identity read always ends with exactly one report.  When the
    address phase fails nothing is received and the value reported is the 0
    the variable was initialized with; otherwise it is the variable after
    the receive.  The value reported is always a byte. *)
Theorem who_am_i_report (w : world) (s : state) :
  let status := XIic_Send w (time s) MAG_ADDR [0x00] XIIC_REPEATED_START in
  let rc := XIic_Recv w (time s + 1) MAG_ADDR 1 XIIC_STOP in
  let who := if status =? 1 then byte_at (store_recv [0] 1 (snd rc)) 0 else 0 in
  emitted (report_who_am_i w) s =
    IicSend MAG_ADDR [0x00] XIIC_REPEATED_START status ::
    (if status =? 1 then [IicRecv MAG_ADDR 1 XIIC_STOP (fst rc)] else []) ++
    [PrintWhoAmI who] /\
  is_byte who /\
  ASA (exec (report_who_am_i w) s) = ASA s.
Proof.
  cbv zeta. split; [ | split ].
  - apply emitted_run. unfold exec, report_who_am_i. cbv zeta.
    rewrite run_bind, run_ReadReg. cbv zeta.
    destruct (XIic_Send w (time s) MAG_ADDR [0] XIIC_REPEATED_START =? 1);
      cbn [fst snd]; rewrite run_emit; cbn [snd logged log app];
      now rewrite <- app_assoc.
  - destruct (_ =? 1).
    + apply byte_at_is_byte, store_recv_bytes.
      repeat constructor; unfold is_byte; lia.
    + unfold is_byte. lia.
  - apply keeps_report_who_am_i.
Qed.

(** ** Setting up happens once *)

Lemma cycle_no_setup (w : world) (s : state) :
  count is_setup (emitted (acquisition_cycle w) s) = 0%nat.
Proof.
  rewrite emitted_acquisition_cycle, emitted_read_mpu9250.
  set (s1 := exec (read_mpu9250 w) s).
  pose proof (emitted_read_magnetometer w s1) as E. cbv zeta in E. rewrite E. clear E.
  rewrite emitted_burst_read, emitted_status_read, emitted_data_read, !emitted_ReadReg.
  cbv zeta.
  repeat match goal with
         | |- context [if ?b then _ else _] => destruct b
         end; reflexivity.
Qed.

Lemma loop_no_setup (w : world) (n : nat) (s : state) :
  count is_setup (emitted (acquisition_loop w n) s) = 0%nat.
Proof.
  revert s. induction n as [ | n IH]; intros s.
  - cbn [acquisition_loop]. now rewrite emitted_ret.
  - now rewrite emitted_loop_succ, count_app, cycle_no_setup, IH.
Qed.

Lemma loop_setup_nil (w : world) (n : nat) (s : state) :
  filter is_setup (emitted (acquisition_loop w n) s) = [].
Proof.
  apply length_zero_iff_nil. apply loop_no_setup.
Qed.

(** X14: the loop never sets anything up again: no turn initializes the
    platform or the bus, starts the bus, or reports the identity or the
    adjustment bytes.  The setup events of a run are the same events, in the
    same order, whatever the number of turns observed, and the bus is
    initialized exactly once. *)
Theorem setup_happens_once (w : world) (n : nat) (s : state) :
  filter is_setup (emitted (acquisition_loop w n) s) = [] /\
  filter is_setup (log (exec (main w n) initial_state))
    = filter is_setup (log (exec (main w 0) initial_state)) /\
  count (fun e => match e with IicInitialize _ => true | _ => false end)
        (log (exec (main w n) initial_state)) = 1%nat.
Proof.
  split; [ apply loop_setup_nil | ].
  pose proof (main_log w n) as En. pose proof (main_log w 0) as E0.
  cbv zeta in En, E0. rewrite En, E0.
  set (s2 := logged initial_state
               [InitPlatform; Print ("Iniciando MPU9250..." ++ LFCR)]).
  split.
  - now rewrite !filter_app, !loop_setup_nil.
  - rewrite !count_app.
    assert (L : forall l, (count (fun e => match e with IicInitialize _ => true | _ => false end) l
                           <= count is_setup l)%nat).
    { induction l as [ | e l IH]; [ reflexivity | ].
      rewrite !count_cons. destruct e; cbn; lia. }
    pose proof (L (emitted (acquisition_loop w n) (exec (init_mpu9250 w) s2))) as Ln.
    rewrite loop_no_setup in Ln.
    assert (I : count (fun e => match e with IicInitialize _ => true | _ => false end)
                  (emitted (init_mpu9250 w) s2) = 1%nat).
    { rewrite emitted_init_mpu9250, count_cons.
      destruct (XIic_Initialize w =? XST_SUCCESS); [ | reflexivity ].
      unfold_init. split_events. forget_states.
      rewrite !count_app.
      rewrite ?emitted_WriteReg, ?emitted_ReadReg, ?emitted_emit, ?emitted_get_ASA,
        ?emitted_set_ASA, ?emitted_ret.
      cbv zeta.
      repeat match goal with
             | |- context [if ?b then _ else _] => destruct b
             end; reflexivity. }
    rewrite I. cbn [count filter List.length Nat.add]. lia.
Qed.

(** ** The bytes of an assembled value *)

Lemma int16_pair (hi lo : Z) :
  is_byte hi -> is_byte lo ->
  let v := int16 (Z.lor (Z.shiftl hi 8) lo) in
  -32768 <= v <= 32767 /\
  v mod 256 = lo /\
  (v mod 65536) / 256 = hi /\
  (v <? 0) = (128 <=? hi).
Proof.
  intros Hhi Hlo. cbv zeta. rewrite assemble_msb_first by assumption.
  unfold msb_first, is_byte in *. cbv zeta.
  destruct (Z.ltb_spec (256 * hi + lo) 32768) as [Hu | Hu];
    (split; [ lia | split; [ | split ] ]);
    Z.to_euclidean_division_equations; lia.
Qed.

(** X10: each value assembled from a burst read is in the range of a signed
    16-bit integer and keeps both bytes it was made of: its low 8 bits are
    the byte at the odd offset, bits 8 to 15 the byte at the even offset, and
    it is negative exactly when that byte is 128 or more.  The magnetometer
    values keep theirs with the offsets exchanged. *)
Theorem assembled_values_keep_their_bytes (w : world) (s : state) :
  (let data := snd (result (burst_read w) s) in
   Forall (fun k =>
     let v := nth k (mpu_fields (mpu_assemble data)) 0 in
     -32768 <= v <= 32767 /\
     v mod 256 = byte_at data (2 * k + 1) /\
     (v mod 65536) / 256 = byte_at data (2 * k) /\
     (v <? 0) = (128 <=? byte_at data (2 * k))) (seq 0 7)) /\
  (let data := snd (result (data_read w) s) in
   Forall (fun k =>
     let v := nth k (mag_fields (mag_assemble data)) 0 in
     -32768 <= v <= 32767 /\
     v mod 256 = byte_at data (2 * k) /\
     (v mod 65536) / 256 = byte_at data (2 * k + 1) /\
     (v <? 0) = (128 <=? byte_at data (2 * k + 1))) (seq 0 3)).
Proof.
  split; cbv zeta.
  - pose proof (burst_read_bytes w s) as Hb.
    repeat constructor;
      apply (int16_pair _ _ (byte_at_is_byte _ _ Hb) (byte_at_is_byte _ _ Hb)).
  - pose proof (data_read_bytes w s) as Hb.
    repeat constructor;
      apply (int16_pair _ _ (byte_at_is_byte _ _ Hb) (byte_at_is_byte _ _ Hb)).
Qed.

(** ** Ranges of the physical values *)

(** X11: the acceleration printed for a signed 16-bit raw value lies
    between -8 g and 32767/4096 g, below 8 g, the range the sensitivity is
    chosen for, and a larger raw value always gives a larger acceleration. *)
Theorem acceleration_range_and_order (z1 z2 : Z) :
  let r1 := int16 z1 in
  let r2 := int16 z2 in
  (- (8) <= F32.to_Q (accel_g r1))%Q /\
  (F32.to_Q (accel_g r1) <= 32767 # 4096)%Q /\
  (r1 < r2 <-> (F32.to_Q (accel_g r1) < F32.to_Q (accel_g r2))%Q).
Proof.
  cbv zeta.
  pose proof (int16_bounds z1) as B1. pose proof (int16_bounds z2) as B2.
  destruct (accel_exact _ B1) as [_ E1]. destruct (accel_exact _ B2) as [_ E2].
  rewrite E1, E2.
  unfold Qle, Qlt. cbn [Qnum Qden Qopp]. repeat split; lia.
Qed.

(** X12: for every signed 16-bit raw value the angular rate printed is
    strictly between -2000 and 2000 degrees per second, the range the
    sensitivity is chosen for, and the temperature printed is strictly between
    -60 and 133 degrees. *)
Theorem rate_and_temperature_ranges (z : Z) :
  let raw := int16 z in
  (- (2000) < F32.to_Q (gyro_dps raw) < 2000)%Q /\
  (- (60) < F32.to_Q (temp_c raw) < 133)%Q.
Proof.
  cbv zeta. pose proof (int16_bounds z) as B.
  destruct (gyro_within _ B) as [_ G]. destruct (temp_within _ B) as [_ T].
  apply Qabs_Qle_condition in G. apply Qabs_Qle_condition in T.
  set (raw := int16 z) in *.
  assert (G1 : (- (327680 # 164) <= (raw * 10) # 164)%Q)
    by (unfold Qle; cbn [Qnum Qden Qopp]; lia).
  assert (G2 : ((raw * 10) # 164 <= 327670 # 164)%Q)
    by (unfold Qle; cbn [Qnum Qden Qopp]; lia).
  assert (T1 : (- (32768 # 340) <= raw # 340)%Q)
    by (unfold Qle; cbn [Qnum Qden Qopp]; lia).
  assert (T2 : (raw # 340 <= 32767 # 340)%Q)
    by (unfold Qle; cbn [Qnum Qden Qopp]; lia).
  set (g := F32.to_Q (gyro_dps raw)) in *.
  set (t := F32.to_Q (temp_c raw)) in *.
  set (qg := ((raw * 10) # 164)%Q) in *.
  set (qt := (raw # 340)%Q) in *.
  clearbody g t qg qt.
  repeat split; lra.
Qed.

(** ** Symmetry of the conversions *)

Lemma mul_opp_l (x : spec_float) (m : positive) (e : Z) :
  F32.mul (SFopp x) (S754_finite false m e)
  = SFopp (F32.mul x (S754_finite false m e)).
Proof.
  destruct x as [sx | sx | | sx mx ex]; cbn [SFopp F32.mul SFmul];
    try reflexivity; try (now destruct sx).
  unfold F32.mul, SFmul. rewrite !xorb_false_r. apply binary_round_aux_opp.
Qed.

Lemma adj_positive_all : forall_from 0 256 (fun asa => is_positive (adj asa)) = true.
Proof. vm_cast_no_check (eq_refl true). Qed.

Lemma adj_positive (a : Z) :
  is_byte a -> exists m e, adj a = S754_finite false m e.
Proof.
  intros Ha.
  assert (H : is_positive (adj a) = true).
  { apply (forall_from_spec _ _ _ adj_positive_all). unfold is_byte in Ha. cbn. lia. }
  destruct (adj a) as [ | | | [ | ] m e]; try discriminate. now exists m, e.
Qed.

Lemma mag_uT_opp (r a : Z) :
  r <> 0 -> is_byte a -> mag_uT (- r) a = SFopp (mag_uT r a).
Proof.
  intros Hr Ha. unfold mag_uT. destruct (adj_positive a Ha) as (m & e & ->).
  rewrite of_int_opp by assumption.
  rewrite mul_opp_l. unfold lit_0_15f. now rewrite mul_opp_l.
Qed.

Lemma mag_uT_zero (a : Z) : is_byte a -> mag_uT 0 a = S754_zero false.
Proof.
  intros Ha. unfold mag_uT. destruct (adj_positive a Ha) as (m & e & ->).
  reflexivity.
Qed.

(** X13: the conversions treat both signs alike: negating the raw value
    negates the acceleration, the angular rate and, for every adjustment
    byte, the magnetic value, with no difference from rounding; and a raw
    value 0 gives exactly 0 for all three. *)
Theorem conversions_are_odd :
  (forall r, (F32.to_Q (accel_g (- r)) == - F32.to_Q (accel_g r))%Q) /\
  (forall r, (F32.to_Q (gyro_dps (- r)) == - F32.to_Q (gyro_dps r))%Q) /\
  (forall r z,
     (F32.to_Q (mag_uT (- r) (uint8 z)) == - F32.to_Q (mag_uT r (uint8 z)))%Q) /\
  accel_g 0 = S754_zero false /\
  gyro_dps 0 = S754_zero false /\
  (forall z, mag_uT 0 (uint8 z) = S754_zero false).
Proof.
  split; [ | split; [ | split; [ | split; [ | split ] ] ] ].
  - intros r. destruct (Z.eq_dec r 0) as [-> | Hr]; [ now vm_compute | ].
    rewrite accel_g_opp by assumption. apply to_Q_opp.
  - intros r. destruct (Z.eq_dec r 0) as [-> | Hr]; [ now vm_compute | ].
    rewrite gyro_dps_opp by assumption. apply to_Q_opp.
  - intros r z. destruct (Z.eq_dec r 0) as [-> | Hr].
    + cbn [Z.opp]. rewrite mag_uT_zero by apply uint8_is_byte. reflexivity.
    + rewrite mag_uT_opp by (assumption || apply uint8_is_byte). apply to_Q_opp.
  - reflexivity.
  - reflexivity.
  - intros z. apply mag_uT_zero, uint8_is_byte.
Qed.

(** ** The discipline of the bus *)

Lemma paired_app (h : option Z) (l1 l2 : list event) :
  paired h l1 = true -> paired h (l1 ++ l2) = paired None l2.
Proof.
  revert h. induction l1 as [ | e l1 IH]; intros h H.
  - destruct h; [ discriminate | reflexivity ].
  - cbn [app paired] in *.
    destruct h as [d | ]; destruct e; try discriminate; try (now apply IH).
    + apply andb_true_iff in H. destruct H as [-> H]. cbn [andb]. now apply IH.
    + destruct opt; now apply IH.
Qed.

Lemma disciplined_nil : disciplined [].
Proof. split; reflexivity. Qed.

Lemma disciplined_app (l1 l2 : list event) :
  disciplined l1 -> disciplined l2 -> disciplined (l1 ++ l2).
Proof.
  intros [W1 P1] [W2 P2]. split.
  - now rewrite forallb_app, W1, W2.
  - now rewrite (paired_app _ _ _ P1).
Qed.

Lemma disciplined_WriteReg (w : world) (d r v : Z) (s : state) :
  is_device d = true -> byte_payload [r; v] = true ->
  disciplined (emitted (IIC_WriteReg w d r v) s).
Proof.
  intros Hd Hp. rewrite emitted_WriteReg. split.
  - cbn [forallb well_formed]. now rewrite Hd, Hp.
  - reflexivity.
Qed.

Lemma disciplined_ReadReg (w : world) (d r : Z) (buf : list Z) (len : Z) (s : state) :
  is_device d = true -> byte_payload [r] = true -> 0 < len ->
  disciplined (emitted (IIC_ReadReg w d r buf len) s).
Proof.
  intros Hd Hp Hl. rewrite emitted_ReadReg. cbv zeta.
  apply Z.ltb_lt in Hl.
  split.
  - destruct (_ =? 1); cbn [forallb well_formed]; now rewrite Hd, Hp, ?Hl.
  - cbn [paired]. destruct (_ =? 1); cbn [paired]; [ | reflexivity ].
    now rewrite Z.eqb_refl.
Qed.

Lemma disciplined_emit (e : event) (s : state) :
  well_formed e = true -> paired None [e] = true ->
  disciplined (emitted (emit e) s).
Proof. intros W P. rewrite emitted_emit. split; [ cbn; now rewrite W | exact P ]. Qed.

Ltac discipline :=
  repeat first
    [ apply disciplined_app
    | apply disciplined_nil
    | apply disciplined_WriteReg; reflexivity
    | apply disciplined_ReadReg; reflexivity
    | apply disciplined_emit; reflexivity
    | rewrite emitted_ret
    | rewrite emitted_get_ASA
    | rewrite emitted_set_ASA ].

Lemma disciplined_init_mpu9250 (w : world) (s : state) :
  disciplined (emitted (init_mpu9250 w) s).
Proof.
  rewrite emitted_init_mpu9250.
  change (?e :: ?l) with ([e] ++ l).
  apply disciplined_app; [ split; reflexivity | ].
  destruct (XIic_Initialize w =? XST_SUCCESS); [ | split; reflexivity ].
  generalize (logged s [IicInitialize (XIic_Initialize w)]). intro s0.
  unfold_init. split_events. forget_states.
  discipline.
Qed.

Lemma disciplined_cycle (w : world) (s : state) :
  disciplined (emitted (acquisition_cycle w) s).
Proof.
  rewrite emitted_acquisition_cycle, emitted_read_mpu9250.
  set (s1 := exec (read_mpu9250 w) s).
  pose proof (emitted_read_magnetometer w s1) as E. cbv zeta in E. rewrite E. clear E.
  rewrite emitted_burst_read, emitted_status_read, emitted_data_read.
  repeat apply disciplined_app.
  - now apply disciplined_ReadReg.
  - destruct (_ =? 14); split; reflexivity.
  - now apply disciplined_ReadReg.
  - destruct (_ =? 0); [ apply disciplined_nil | ].
    apply disciplined_app; [ now apply disciplined_ReadReg | ].
    repeat match goal with
           | |- context [if ?b then _ else _] => destruct b
           end; split; reflexivity.
  - split; reflexivity.
Qed.

Lemma disciplined_loop (w : world) (n : nat) (s : state) :
  disciplined (emitted (acquisition_loop w n) s).
Proof.
  revert s. induction n as [ | n IH]; intros s.
  - cbn [acquisition_loop]. rewrite emitted_ret. apply disciplined_nil.
  - rewrite emitted_loop_succ.
    apply disciplined_app; [ apply disciplined_cycle | apply IH ].
Qed.

Lemma disciplined_main (w : world) (n : nat) :
  disciplined (log (exec (main w n) initial_state)).
Proof.
  pose proof (main_log w n) as E. cbv zeta in E. rewrite E.
  repeat apply disciplined_app.
  - split; reflexivity.
  - apply disciplined_init_mpu9250.
  - apply disciplined_loop.
Qed.

(** X15: in every run the bus is used in one way only.  Every write goes
    to the sensor or to the magnetometer and carries either a register and a
    value, closed by a stop, or a register address alone with the bus held;
    every receive asks one of the two devices for at least one byte and is
    closed by a stop.  A receive happens exactly after an address phase to the
    same device that transferred its byte, so no receive is made unasked and
    no held bus is left without its receive. *)
Theorem bus_discipline (w : world) (n : nat) :
  let l := log (exec (main w n) initial_state) in
  forallb well_formed l = true /\ paired None l = true.
Proof. exact (disciplined_main w n). Qed.

(** ** Longer observations extend shorter ones *)

Lemma acquisition_loop_add (w : world) (n m : nat) (s : state) :
  exec (acquisition_loop w (n + m)) s
  = exec (acquisition_loop w m) (exec (acquisition_loop w n) s).
Proof.
  revert s. induction n as [ | n IH]; intros s.
  - reflexivity.
  - cbn [Nat.add acquisition_loop]. now rewrite !exec_bind, IH.
Qed.

(** X16: what is observed after [n] turns is never revised: the state
    after [n + m] turns is the state after [n] turns taken through [m] more
    turns, its log is the earlier log followed by the events of those turns,
    with [m] more one-second pauses, and the adjustment bytes are the same. *)
Theorem longer_runs_extend_shorter_ones (w : world) (n m : nat) :
  let s := exec (main w n) initial_state in
  let s' := exec (main w (n + m)) initial_state in
  s' = exec (acquisition_loop w m) s /\
  log s' = log s ++ emitted (acquisition_loop w m) s /\
  count is_cadence_sleep (log s')
    = (count is_cadence_sleep (log s) + m)%nat /\
  ASA s' = ASA s.
Proof.
  cbv zeta.
  assert (E : exec (main w (n + m)) initial_state
              = exec (acquisition_loop w m) (exec (main w n) initial_state)).
  { unfold main. rewrite !exec_bind. apply acquisition_loop_add. }
  assert (L : log (exec (main w (n + m)) initial_state)
              = log (exec (main w n) initial_state)
                ++ emitted (acquisition_loop w m) (exec (main w n) initial_state)).
  { rewrite E. apply appends_emitted, appends_acquisition_loop. }
  split; [ exact E | ]. split; [ exact L | ]. split.
  - rewrite L, count_app.
    destruct (loop_counts w m (exec (main w n) initial_state)) as (C & _).
    now rewrite C.
  - now rewrite (ASA_main w (n + m)), (ASA_main w n).
Qed.

(** * The values printed by the routines *)

Lemma mag_neutral_nonneg :
  forall_from 0 (Z.to_nat 32769)
    (fun raw => within (1 # 2048) (mag_uT raw 128) ((raw * 15) # 100)) = true.
Proof. vm_cast_no_check (eq_refl true). Qed.

Lemma mag_raw_100_all :
  forall_from 0 256
    (fun a => within (1 # 1048576) (mag_uT 100 a)
                ((15 # 1) * (((a - 128) # 256) + 1))) = true.
Proof. vm_cast_no_check (eq_refl true). Qed.

Lemma mag_neutral_within (raw : Z) :
  -32768 <= raw <= 32767 ->
  F32.is_finite (mag_uT raw 128) = true /\
  (Qabs (F32.to_Q (mag_uT raw 128) - ((raw * 15) # 100)) <= 1 # 2048)%Q.
Proof.
  intros Hraw.
  assert (B : is_byte 128) by (unfold is_byte; lia).
  destruct (Z.le_gt_cases 0 raw) as [Hpos | Hneg].
  - apply within_spec, (forall_from_spec _ _ _ mag_neutral_nonneg).
    rewrite Z2Nat.id; lia.
  - destruct (within_spec (1 # 2048) (mag_uT (- raw) 128) ((- raw * 15) # 100))
      as [F E].
    { apply (forall_from_spec _ _ _ mag_neutral_nonneg). rewrite Z2Nat.id; lia. }
    assert (R : mag_uT raw 128 = SFopp (mag_uT (- raw) 128))
      by (rewrite <- mag_uT_opp by (lia || exact B); f_equal; lia).
    rewrite R, is_finite_opp.
    split; [ exact F | ].
    setoid_rewrite to_Q_opp.
    rewrite <- Qabs_opp.
    assert (Q : (- (- F32.to_Q (mag_uT (- raw) 128) - ((raw * 15) # 100))
                 == F32.to_Q (mag_uT (- raw) 128) - ((- raw * 15) # 100))%Q).
    { set (x := F32.to_Q (mag_uT (- raw) 128)).
      assert (O : ((- raw * 15) # 100 == - ((raw * 15) # 100))%Q)
        by (unfold Qeq, Qopp; cbn [Qnum Qden]; lia).
      rewrite O. ring. }
    now rewrite Q.
Qed.

Lemma turn_log (w : world) (n : nat) :
  let s0 := exec (main w n) initial_state in
  log (exec (main w (S n)) initial_state) =
    log s0 ++ emitted (read_mpu9250 w) s0 ++
    emitted (read_magnetometer w) (exec (read_mpu9250 w) s0) ++
    [Usleep 1000000].
Proof.
  cbv zeta.
  assert (E : exec (main w (S n)) initial_state
              = exec (acquisition_cycle w) (exec (main w n) initial_state)).
  { unfold main. rewrite !exec_bind. apply acquisition_loop_succ. }
  rewrite E, (appends_emitted _ _ (appends_acquisition_cycle w)).
  now rewrite emitted_acquisition_cycle.
Qed.

Lemma ASA_ok_turn (w : world) (n : nat) :
  ASA_ok (exec (read_mpu9250 w) (exec (main w n) initial_state)).
Proof.
  unfold ASA_ok. rewrite (keeps_read_mpu9250 w). apply ASA_ok_main.
Qed.

(** C6: in every state, when the burst read returns 14 the routine prints
    one line whose seven values are the conversions of the seven assembled
    values, the acceleration of the first three, the temperature of the
    fourth and the angular rate of the last three; otherwise it prints the
    message and converts nothing.  The sensitivities are the binary32 numbers
    4096, 340 and the nearest ones to 36.53 and 16.4.  For every signed 16-bit
    raw value, and so for the values of the line, the acceleration is exactly
    raw / 4096, the temperature is within 2^-16 of raw / 340 + 36.53 and the
    angular rate within 2^-13 of raw / 16.4.  Raw 4096 and -4096 give exactly
    1 and -1, printed 1.000 and -1.000; raw temperature 0 gives the binary32
    number nearest to 36.53, printed 36.53; raw rate 1640 gives exactly 100,
    printed 100.000; a run on a bus that answers these raw values prints
    them. *)
Theorem physical_conversions :
  (forall (w : world) (s : state),
     let sent := XIic_Send w (time s) MPU_ADDR [0x3B] XIIC_REPEATED_START in
     let got := fst (XIic_Recv w (time s + 1) MPU_ADDR 14 XIIC_STOP) in
     let n := fst (result (burst_read w) s) in
     let r := mpu_assemble (snd (result (burst_read w) s)) in
     emitted (read_mpu9250 w) s =
       IicSend MPU_ADDR [0x3B] XIIC_REPEATED_START sent ::
       (if sent =? 1 then [IicRecv MPU_ADDR 14 XIIC_STOP got] else []) ++
       [if n =? 14
        then PrintMpu (accel_g (ax r)) (accel_g (ay r)) (accel_g (az r))
                      (temp_c (temp r))
                      (gyro_dps (gx r)) (gyro_dps (gy r)) (gyro_dps (gz r))
        else Print ("Error leyendo datos del MPU" ++ CRLF)] /\
     Forall (fun raw =>
               F32.is_finite (accel_g raw) = true /\
               (F32.to_Q (accel_g raw) == raw # 4096)%Q)
            [ax r; ay r; az r] /\
     (F32.is_finite (temp_c (temp r)) = true /\
      (Qabs (F32.to_Q (temp_c (temp r)) - ((temp r # 340) + (3653 # 100)))
       <= 1 # 65536)%Q) /\
     Forall (fun raw =>
               F32.is_finite (gyro_dps raw) = true /\
               (Qabs (F32.to_Q (gyro_dps raw) - ((raw * 10) # 164)) <= 1 # 8192)%Q)
            [gx r; gy r; gz r]) /\
  ((F32.to_Q ACCEL_SENS == 4096)%Q /\
   (F32.to_Q lit_340_0f == 340)%Q /\
   (Qabs (F32.to_Q lit_36_53f - (3653 # 100)) <= 1 # 524288)%Q /\
   (Qabs (F32.to_Q GYRO_SENS - (164 # 10)) <= 1 # 1048576)%Q) /\
  (forall z, let raw := int16 z in
     F32.is_finite (accel_g raw) = true /\
     (F32.to_Q (accel_g raw) == raw # 4096)%Q) /\
  (forall z, let raw := int16 z in
     F32.is_finite (temp_c raw) = true /\
     (Qabs (F32.to_Q (temp_c raw) - ((raw # 340) + (3653 # 100))) <= 1 # 65536)%Q) /\
  (forall z, let raw := int16 z in
     F32.is_finite (gyro_dps raw) = true /\
     (Qabs (F32.to_Q (gyro_dps raw) - ((raw * 10) # 164)) <= 1 # 8192)%Q) /\
  (accel_g 4096 = F32.of_int 1 /\ F32.printed 3 (accel_g 4096) = 1000) /\
  (accel_g (-4096) = F32.of_int (-1) /\ F32.printed 3 (accel_g (-4096)) = -1000) /\
  (temp_c 0 = lit_36_53f /\ F32.printed 2 (temp_c 0) = 3653) /\
  (gyro_dps 1640 = F32.of_int 100 /\ F32.printed 3 (gyro_dps 1640) = 100000) /\
  filter is_print_mpu (log (exec (main sample_world 1) initial_state)) =
    [PrintMpu (F32.of_int 1) (F32.of_int (-1)) (S754_zero false)
              lit_36_53f
              (F32.of_int 100) (S754_zero false) (S754_zero false)].
Proof.
  split.
  { intros w s sent got n r.
    split; [ apply events_read_mpu9250 | ].
    unfold r, mpu_assemble. cbn [ax ay az temp gx gy gz].
    split; [ repeat constructor; apply accel_exact, int16_bounds | ].
    split; [ apply temp_within, int16_bounds | ].
    repeat constructor; apply gyro_within, int16_bounds. }
  split.
  { split; [ | split; [ | split ] ]; try (apply Qle_bool_iff);
      vm_compute; reflexivity. }
  split.
  { intros z raw. apply accel_exact, int16_bounds. }
  split.
  { intros z raw. apply temp_within, int16_bounds. }
  split.
  { intros z raw. apply gyro_within, int16_bounds. }
  split; [ split; vm_compute; reflexivity | ].
  split; [ split; vm_compute; reflexivity | ].
  split; [ split; vm_compute; reflexivity | ].
  split; [ split; vm_compute; reflexivity | ].
  vm_compute. reflexivity.
Qed.

(** C7, as amended: in every turn of every run the magnetometer line is
    printed exactly for a valid sample, status bit 0 set, data read complete
    and overflow bit clear, and its three values are the conversions of the
    numbers assembled least significant byte first from the offsets [0,1],
    [2,3] and [4,5] of the data read, each with the adjustment byte of its
    axis as the initialization left it in the global array.  These are bytes,
    and for every byte the adjustment factor is exactly (ASA - 128) / 256 + 1;
    the scale factor is the binary32 number nearest to 0.15.  With ASA 128
    the factor is exactly 1 and every raw value gives raw * 0.15 within 2^-11;
    raw 100 gives 15 * factor within 2^-20 for every adjustment byte, and
    with ASA 128 it gives 15 + 2^-20, printed 15.00. *)
Theorem magnetometer_conversion (w : world) (n : nat) :
  let s0 := exec (main w n) initial_state in
  let s := exec (read_mpu9250 w) s0 in
  let st1 := byte_at (snd (result (status_read w) s)) 0 in
  let s1 := exec (status_read w) s in
  let cnt := fst (result (data_read w) s1) in
  let data := snd (result (data_read w) s1) in
  let valid := Z.testbit st1 0 && (cnt =? 7) && negb (Z.testbit (byte_at data 6) 3) in
  let raw k := msb_first (byte_at data (2 * k + 1)) (byte_at data (2 * k)) in
  let asa k := byte_at (ASA s) k in
  log (exec (main w (S n)) initial_state) =
    log s0 ++ emitted (read_mpu9250 w) s0 ++ emitted (read_magnetometer w) s ++
    [Usleep 1000000] /\
  filter is_print_mag (emitted (read_magnetometer w) s) =
    (if valid
     then [PrintMag (mag_uT (raw 0%nat) (asa 0%nat))
                    (mag_uT (raw 1%nat) (asa 1%nat))
                    (mag_uT (raw 2%nat) (asa 2%nat))]
     else []) /\
  mag_assemble data = {| mx := raw 0%nat; my := raw 1%nat; mz := raw 2%nat |} /\
  ASA s = ASA (exec (main w 0) initial_state) /\
  Forall (fun k =>
            is_byte (asa k) /\
            -32768 <= raw k <= 32767 /\
            F32.is_finite (adj (asa k)) = true /\
            (F32.to_Q (adj (asa k)) == ((asa k - 128) # 256) + 1)%Q)
         [0%nat; 1%nat; 2%nat] /\
  ((F32.to_Q lit_256_0f == 256)%Q /\
   (F32.to_Q lit_1_0f == 1)%Q /\
   (Qabs (F32.to_Q lit_0_15f - (15 # 100)) <= 1 # 134217728)%Q) /\
  (forall z, let a := uint8 z in
     F32.is_finite (adj a) = true /\
     (F32.to_Q (adj a) == ((a - 128) # 256) + 1)%Q) /\
  adj 128 = F32.of_int 1 /\
  (forall z, let r := int16 z in
     F32.is_finite (mag_uT r 128) = true /\
     (Qabs (F32.to_Q (mag_uT r 128) - ((r * 15) # 100)) <= 1 # 2048)%Q) /\
  (forall z, let a := uint8 z in
     F32.is_finite (mag_uT 100 a) = true /\
     (Qabs (F32.to_Q (mag_uT 100 a) - (15 # 1) * (((a - 128) # 256) + 1))
      <= 1 # 1048576)%Q) /\
  (F32.to_Q (mag_uT 100 128) == 15 + (1 # 1048576))%Q /\
  F32.printed 2 (mag_uT 100 128) = 1500.
Proof.
  intros s0 s st1 s1 cnt data valid raw asa.
  pose proof (data_read_bytes w s1) as Hb. fold data in Hb.
  pose proof (ASA_ok_turn w n) as [_ Ha]. fold s0 s in Ha.
  assert (A : mag_assemble data =
              {| mx := raw 0%nat; my := raw 1%nat; mz := raw 2%nat |}).
  { unfold mag_assemble, raw. cbn [Nat.mul Nat.add].
    now rewrite !assemble_msb_first by (now apply byte_at_is_byte). }
  assert (R : forall k, -32768 <= raw k <= 32767).
  { intros k. unfold raw.
    rewrite <- assemble_msb_first by (now apply byte_at_is_byte).
    apply int16_bounds. }
  split; [ apply turn_log | ].
  split.
  { pose proof (events_read_magnetometer w s) as G. cbv zeta in G.
    fold st1 s1 cnt data in G. rewrite G, A. clear G.
    unfold valid, mag_line. cbn [mx my mz filter is_print_mag].
    rewrite !filter_app. fold asa.
    repeat match goal with
           | |- context [if ?b then _ else _] =>
               destruct b; cbn [filter is_print_mag app andb negb]
           end; reflexivity. }
  split; [ exact A | ].
  split.
  { unfold s, s0. now rewrite (keeps_read_mpu9250 w), ASA_main. }
  split.
  { repeat constructor; try (apply byte_at_is_byte, Ha); try apply R;
      apply adj_byte, byte_at_is_byte, Ha. }
  split.
  { split; [ | split ]; try (apply Qle_bool_iff); vm_compute; reflexivity. }
  split.
  { intros z a. apply adj_byte, uint8_is_byte. }
  split; [ vm_compute; reflexivity | ].
  split.
  { intros z r. apply mag_neutral_within, int16_bounds. }
  split.
  { intros z a. apply within_spec.
    apply (forall_from_spec _ _ _ mag_raw_100_all), uint8_range. }
  split; vm_compute; reflexivity.
Qed.

(** C7, as stated, fails in the last digit: on a bus that answers raw 100
    with adjustment byte 128 the value printed for the axis is the binary32
    number next above 15. *)
Lemma raw_100_with_ASA_128_is_above_15 :
  ASA (exec (main sample_world 1) initial_state) = [128; 128; 128] /\
  filter is_print_mag (log (exec (main sample_world 1) initial_state)) =
    [PrintMag (mag_uT 100 128) (mag_uT (-100) 128) (mag_uT 0 128)] /\
  mag_uT 100 128 = S754_finite false 15728641 (-20) /\
  F32.of_int 15 = S754_finite false 15728640 (-20) /\
  mag_uT 100 128 <> F32.of_int 15.
Proof.
  split; [ vm_compute; reflexivity | ].
  split; [ vm_compute; reflexivity | ].
  split; [ vm_compute; reflexivity | ].
  split; [ vm_compute; reflexivity | ].
  vm_compute. discriminate.
Qed.
